(** * ClassificationModelWrapper (wrapper.py): the training loop, its
      early-stopping policy and its setup dispatch.

    The wrapper drives torch, torchvision and torchmetrics objects.  They are
    taken as collaborators (class [Torch]): the forward pass, the criterion,
    the accuracy metric and the optimizer are functions of the values the
    wrapper hands them.  The collaborators of the setup methods (the
    pretrained constructor, the classifier, the checkpoint, the optimizer
    constructor) may raise, and what they raise propagates; those of the
    batch loops are taken where they return.  Dropout's random mask and device
    placement are not modelled.  Python floats are binary64 numbers ([PrimFloat.float]), Python
    ints are [Z], a DataLoader is the list of the batches it yields, and the
    object [self] is the record [Self], threaded through every method.  Console
    output (print, tqdm) is not modelled. *)

From Stdlib Require Import Floats ZArith List String Bool Lia.
From Stdlib Require Import DecimalString.
Import ListNotations.

Local Open Scope string_scope.
Local Open Scope list_scope.
Local Open Scope Z_scope.

(** ** Python values *)

(** The exceptions: the two the wrapper raises by itself or by dividing, and
    any other, by the name of its class and its message, that a collaborator
    raises. *)
Inductive exn : Type :=
| ZeroDivisionError
| RuntimeError (msg : string)
| OtherError (kind msg : string).

Inductive result (A : Type) : Type :=
| Ok (a : A)
| Raise (e : exn).
Arguments Ok {A} a.
Arguments Raise {A} e.

(** [x < y] and [x > y] on floats: IEEE 754 comparisons, false on NaN. *)
Definition py_lt (x y : float) : bool := PrimFloat.ltb x y.
Definition py_gt (x y : float) : bool := PrimFloat.ltb y x.
Definition py_eq (x y : float) : bool := PrimFloat.eqb x y.
Definition py_ge (x y : float) : bool := PrimFloat.leb y x.

(** [float(len(loader))]. *)
Definition float_of_len (n : nat) : float :=
  PrimFloat.of_uint63 (Uint63.of_Z (Z.of_nat n)).

(** [total / len(loader)]: true division by an int.  The dividend is the int 0
    when the loader is empty and a float otherwise; both raise when the divisor
    is 0. *)
Definition py_truediv (total : float) (n : nat) : result float :=
  match n with
  | O => Raise ZeroDivisionError
  | S _ => Ok (PrimFloat.div total (float_of_len n))
  end.

(** [str(n)] of an int. *)
Definition int_str (n : Z) : string := NilZero.string_of_int (Z.to_int n).

(** [range(n)]. *)
Definition range (n : Z) : list Z := map Z.of_nat (seq 0 (Z.to_nat n)).

(** [needle in haystack] on strings. *)
Fixpoint is_prefix (p s : string) : bool :=
  match p, s with
  | EmptyString, _ => true
  | String a p', String b s' => Ascii.eqb a b && is_prefix p' s'
  | String _ _, EmptyString => false
  end.

Fixpoint contains (needle haystack : string) : bool :=
  is_prefix needle haystack
  || match haystack with
     | EmptyString => false
     | String _ rest => contains needle rest
     end.

(** ** Selectors and the objects they choose *)

Inductive arch : Type := efficientnet_b0 | alexnet | vgg11 | vgg11_bn.
Inductive optim_kind : Type := Adam | SGD.
Inductive criterion_kind : Type := CrossEntropyLoss | BCEWithLogitsLoss.
Inductive acc_kind : Type := multiclass | binary.

(** ** The history table *)

Inductive cell : Type :=
| CInt (n : Z)
| CFloat (x : float).

Record DataFrame : Type := {
  columns : list string;
  rows : list (list cell)
}.

Definition row_epoch (r : list cell) : option Z :=
  match r with
  | CInt e :: _ => Some e
  | _ => None
  end.

(** Calls of the two step methods, with the epoch they ran in: a trace kept
    next to [self] so that theorems can say which steps ran. *)
Inductive call : Type :=
| Call_train_step (epoch : Z)
| Call_test_step (epoch : Z).

(** ** Collaborators *)

Class Torch : Type := {
  params : Type;       (* a model's state_dict *)
  optimizer_t : Type;  (* a torch.optim object *)
  X : Type;            (* a batch of inputs *)
  Y : Type;            (* a batch of labels *)
  logits_t : Type;
  preds_t : Type;
  classifier_t : Type; (* a classification head *)
  state_dict_t : Type; (* what torch.load reads from a checkpoint *)
  (* tv.models.<arch>(weights=DEFAULT) *)
  tv_pretrained : arch -> result params;
  (* parameter.requires_grad = False on model.features.parameters() *)
  freeze_features : params -> params;
  (* nn.Sequential(nn.Dropout(p=0.2), nn.Linear(1280, num_classes)) *)
  nn_classifier : Z -> result classifier_t;
  (* model.classifier = ... *)
  set_classifier : params -> classifier_t -> params;
  (* torch.load(checkpoint, map_location=device) *)
  torch_load : string -> result state_dict_t;
  (* model.load_state_dict(state): what it returns or raises, and the model
     it leaves (it copies what matches before it raises) *)
  load_state_dict : params -> state_dict_t -> result unit * params;
  (* torch.optim.<kind>(model.parameters(), lr=, weight_decay=) *)
  torch_optim : optim_kind -> params -> float -> float -> result optimizer_t;
  (* self.model(X), in training mode or not *)
  forward : bool -> params -> X -> logits_t;
  (* torch.softmax(logits, dim=1).argmax(dim=1) *)
  softmax_argmax : logits_t -> preds_t;
  (* self.criterion(logits, y).item() *)
  loss_item : criterion_kind -> logits_t -> Y -> float;
  (* self.acc_fn(preds, y).item() *)
  acc_item : acc_kind -> preds_t -> Y -> float;
  (* optimizer.zero_grad(); loss.backward(); optimizer.step() *)
  optim_step : optimizer_t -> criterion_kind -> bool -> params -> X -> Y ->
               params * optimizer_t;
  (* str(x) of a float, as an f-string renders it *)
  float_str : float -> string
}.

Section Wrapper.

Context `{Torch}.

(** A file written by torch.save. *)
Record file : Type := {
  f_dir : string;
  f_name : string;
  f_state : params
}.

(** ** The object *)

Record Self : Type := mkSelf {
  LR : float;
  WEIGHT_DECAY : float;
  PATH : string;
  num_classes : Z;
  model : params;
  training : bool;           (* the mode model.train() / model.eval() set *)
  train_loader : list (X * Y);
  test_loader : list (X * Y);
  criterion : criterion_kind;
  acc_fn : acc_kind;
  optimizer : optimizer_t;
  PATIENCE : option Z;
  patience_curr : Z;
  patience_ended : bool;
  epoch : Z;
  history : option DataFrame;
  disk : list file;          (* the files written so far, oldest first *)
  calls : list call
}.

Definition set_model (m : params) (s : Self) : Self :=
  mkSelf (LR s) (WEIGHT_DECAY s) (PATH s) (num_classes s) m (training s)
    (train_loader s) (test_loader s) (criterion s) (acc_fn s) (optimizer s)
    (PATIENCE s) (patience_curr s) (patience_ended s) (epoch s) (history s)
    (disk s) (calls s).

Definition set_training (b : bool) (s : Self) : Self :=
  mkSelf (LR s) (WEIGHT_DECAY s) (PATH s) (num_classes s) (model s) b
    (train_loader s) (test_loader s) (criterion s) (acc_fn s) (optimizer s)
    (PATIENCE s) (patience_curr s) (patience_ended s) (epoch s) (history s)
    (disk s) (calls s).

Definition set_criterion (c : criterion_kind) (s : Self) : Self :=
  mkSelf (LR s) (WEIGHT_DECAY s) (PATH s) (num_classes s) (model s) (training s)
    (train_loader s) (test_loader s) c (acc_fn s) (optimizer s)
    (PATIENCE s) (patience_curr s) (patience_ended s) (epoch s) (history s)
    (disk s) (calls s).

Definition set_acc_fn (a : acc_kind) (s : Self) : Self :=
  mkSelf (LR s) (WEIGHT_DECAY s) (PATH s) (num_classes s) (model s) (training s)
    (train_loader s) (test_loader s) (criterion s) a (optimizer s)
    (PATIENCE s) (patience_curr s) (patience_ended s) (epoch s) (history s)
    (disk s) (calls s).

Definition set_optimizer (o : optimizer_t) (s : Self) : Self :=
  mkSelf (LR s) (WEIGHT_DECAY s) (PATH s) (num_classes s) (model s) (training s)
    (train_loader s) (test_loader s) (criterion s) (acc_fn s) o
    (PATIENCE s) (patience_curr s) (patience_ended s) (epoch s) (history s)
    (disk s) (calls s).

Definition set_PATIENCE (p : option Z) (s : Self) : Self :=
  mkSelf (LR s) (WEIGHT_DECAY s) (PATH s) (num_classes s) (model s) (training s)
    (train_loader s) (test_loader s) (criterion s) (acc_fn s) (optimizer s)
    p (patience_curr s) (patience_ended s) (epoch s) (history s)
    (disk s) (calls s).

Definition set_patience_curr (c : Z) (s : Self) : Self :=
  mkSelf (LR s) (WEIGHT_DECAY s) (PATH s) (num_classes s) (model s) (training s)
    (train_loader s) (test_loader s) (criterion s) (acc_fn s) (optimizer s)
    (PATIENCE s) c (patience_ended s) (epoch s) (history s)
    (disk s) (calls s).

Definition set_patience_ended (b : bool) (s : Self) : Self :=
  mkSelf (LR s) (WEIGHT_DECAY s) (PATH s) (num_classes s) (model s) (training s)
    (train_loader s) (test_loader s) (criterion s) (acc_fn s) (optimizer s)
    (PATIENCE s) (patience_curr s) b (epoch s) (history s)
    (disk s) (calls s).

Definition set_epoch (e : Z) (s : Self) : Self :=
  mkSelf (LR s) (WEIGHT_DECAY s) (PATH s) (num_classes s) (model s) (training s)
    (train_loader s) (test_loader s) (criterion s) (acc_fn s) (optimizer s)
    (PATIENCE s) (patience_curr s) (patience_ended s) e (history s)
    (disk s) (calls s).

Definition set_history (h : option DataFrame) (s : Self) : Self :=
  mkSelf (LR s) (WEIGHT_DECAY s) (PATH s) (num_classes s) (model s) (training s)
    (train_loader s) (test_loader s) (criterion s) (acc_fn s) (optimizer s)
    (PATIENCE s) (patience_curr s) (patience_ended s) (epoch s) h
    (disk s) (calls s).

Definition set_disk (d : list file) (s : Self) : Self :=
  mkSelf (LR s) (WEIGHT_DECAY s) (PATH s) (num_classes s) (model s) (training s)
    (train_loader s) (test_loader s) (criterion s) (acc_fn s) (optimizer s)
    (PATIENCE s) (patience_curr s) (patience_ended s) (epoch s) (history s)
    d (calls s).

Definition set_calls (c : list call) (s : Self) : Self :=
  mkSelf (LR s) (WEIGHT_DECAY s) (PATH s) (num_classes s) (model s) (training s)
    (train_loader s) (test_loader s) (criterion s) (acc_fn s) (optimizer s)
    (PATIENCE s) (patience_curr s) (patience_ended s) (epoch s) (history s)
    (disk s) c.

(** ** Methods: a state monad over [Self] in which an exception keeps the
    mutations made before it was raised. *)

Definition M (A : Type) : Type := Self -> result A * Self.

Definition ret {A} (a : A) : M A := fun s => (Ok a, s).
Definition raise {A} (e : exn) : M A := fun s => (Raise e, s).
Definition bind {A B} (c : M A) (k : A -> M B) : M B :=
  fun s => match c s with
           | (Ok a, s') => k a s'
           | (Raise e, s') => (Raise e, s')
           end.
Definition get : M Self := fun s => (Ok s, s).
Definition modify (f : Self -> Self) : M unit := fun s => (Ok tt, f s).
Definition lift {A} (r : result A) : M A := fun s => (r, s).

Notation "x <- c ;; k" := (bind c (fun x => k))
  (at level 61, c at next level, right associativity).
Notation "' pat <- c ;; k" := (bind c (fun x => match x with pat => k end))
  (at level 61, pat pattern, c at next level, right associativity).
Notation "c ;;; k" := (bind c (fun _ => k))
  (at level 61, right associativity).

(** *** load_model *)

Definition model_error : string :=
  "Incorrect `model` parameter. Check type hint.".

Definition select_arch (model : string) : result arch :=
  if String.eqb model "efficientnet_b0" then Ok efficientnet_b0
  else if String.eqb model "alexnet" then Ok alexnet
  else if String.eqb model "vgg11" then Ok vgg11
  else if String.eqb model "vgg11_bn" then Ok vgg11_bn
  else Raise (RuntimeError model_error).

Definition load_model (num_classes : Z) (model_sel : string)
    (checkpoint : option string) : M unit :=
  a <- lift (select_arch model_sel) ;;
  m <- lift (tv_pretrained a) ;;
  modify (set_model m) ;;;
  modify (fun s => set_model (freeze_features (model s)) s) ;;;
  c <- lift (nn_classifier num_classes) ;;
  modify (fun s => set_model (set_classifier (model s) c) s) ;;;
  match checkpoint with
  | Some path =>
      state <- lift (torch_load path) ;;
      (fun s => let '(r, m) := load_state_dict (model s) state in
                (r, set_model m s))
  | None => ret tt
  end.

(** *** init_optim *)

Definition optimizer_error : string :=
  "Incorrect `optimizer` parameter. Check type hint.".

Definition init_optim (optimizer : string) : M unit :=
  modify (fun s => set_criterion
            (if (num_classes s >? 2)%Z then CrossEntropyLoss else BCEWithLogitsLoss) s) ;;;
  modify (fun s => set_acc_fn
            (if (num_classes s >? 2)%Z then multiclass else binary) s) ;;;
  if String.eqb optimizer "Adam" then
    s <- get ;;
    o <- lift (torch_optim Adam (model s) (LR s) (WEIGHT_DECAY s)) ;;
    modify (set_optimizer o)
  else if String.eqb optimizer "SGD" then
    s <- get ;;
    o <- lift (torch_optim SGD (model s) (LR s) (WEIGHT_DECAY s)) ;;
    modify (set_optimizer o)
  else raise (RuntimeError optimizer_error).

(** *** _train_step *)

(** The body of [for train_X, train_y in self.train_loader]. *)
Fixpoint train_batches (loader : list (X * Y)) (train_loss train_acc : float)
    : M (float * float) :=
  match loader with
  | [] => ret (train_loss, train_acc)
  | (train_X, train_y) :: rest =>
      s <- get ;;
      let logits := forward (training s) (model s) train_X in
      let preds := softmax_argmax logits in
      let train_loss := PrimFloat.add train_loss (loss_item (criterion s) logits train_y) in
      let train_acc := PrimFloat.add train_acc (acc_item (acc_fn s) preds train_y) in
      let '(m, o) := optim_step (optimizer s) (criterion s) (training s)
                       (model s) train_X train_y in
      modify (fun s => set_optimizer o (set_model m s)) ;;;
      train_batches rest train_loss train_acc
  end.

Definition _train_step : M (float * float) :=
  modify (fun s => set_calls (calls s ++ [Call_train_step (epoch s)]) s) ;;;
  modify (set_training true) ;;;
  s <- get ;;
  ' (train_loss, train_acc) <- train_batches (train_loader s) 0%float 0%float ;;
  train_loss <- lift (py_truediv train_loss (List.length (train_loader s))) ;;
  train_acc <- lift (py_truediv train_acc (List.length (train_loader s))) ;;
  ret (train_loss, train_acc).

(** *** _test_step *)

(** The body of [for test_X, test_y in self.test_loader]. *)
Fixpoint test_batches (loader : list (X * Y)) (test_loss test_acc : float)
    : M (float * float) :=
  match loader with
  | [] => ret (test_loss, test_acc)
  | (test_X, test_y) :: rest =>
      s <- get ;;
      let logits := forward (training s) (model s) test_X in
      let preds := softmax_argmax logits in
      let test_loss := PrimFloat.add test_loss (loss_item (criterion s) logits test_y) in
      let test_acc := PrimFloat.add test_acc (acc_item (acc_fn s) preds test_y) in
      test_batches rest test_loss test_acc
  end.

Definition checkpoint_name (epoch : Z) (test_loss test_acc : float) : string :=
  (int_str epoch ++ "_" ++ float_str test_loss ++ "_" ++ float_str test_acc
   ++ ".pth")%string.

(** torch.save(self.model.state_dict(), self.PATH / name) *)
Definition torch_save (name : string) : M unit :=
  modify (fun s => set_disk (disk s ++ [ {| f_dir := PATH s; f_name := name;
                                            f_state := model s |} ]) s).

(** The policy under [if self.PATIENCE is not None]. *)
Definition patience_policy (test_loss_previous test_loss test_acc : float) : M unit :=
  s <- get ;;
  match PATIENCE s with
  | None => ret tt
  | Some limit =>
      if py_lt test_loss_previous test_loss && negb (epoch s =? 0) then
        modify (fun s => set_patience_curr (patience_curr s + 1) s) ;;;
        s <- get ;;
        if patience_curr s =? limit then modify (set_patience_ended true)
        else ret tt
      else if py_gt test_loss_previous test_loss then
        modify (set_patience_curr 0) ;;;
        s <- get ;;
        torch_save (checkpoint_name (epoch s) test_loss test_acc)
      else ret tt
  end.

Definition _test_step (test_loss_previous : float) : M (float * float) :=
  modify (fun s => set_calls (calls s ++ [Call_test_step (epoch s)]) s) ;;;
  modify (set_training false) ;;;
  s <- get ;;
  ' (test_loss, test_acc) <- test_batches (test_loader s) 0%float 0%float ;;
  test_loss <- lift (py_truediv test_loss (List.length (test_loader s))) ;;
  test_acc <- lift (py_truediv test_acc (List.length (test_loader s))) ;;
  patience_policy test_loss_previous test_loss test_acc ;;;
  ret (test_loss, test_acc).

(** *** train *)

Definition history_columns : list string :=
  ["epoch"; "train_loss"; "train_acc"; "test_loss"; "test_acc"].

(** [a % b == 0] on ints; [%] raises when [b] is 0. *)
Definition py_mod_is_zero (a b : Z) : result bool :=
  if b =? 0 then Raise ZeroDivisionError else Ok (a mod b =? 0).

(** One iteration of [for epoch in range(EPOCHS)] after the early-stopping
    test passed: the locals [results] and [test_loss] go in and come out. *)
Definition epoch_body (TEST_EVERY : Z) (results : list (list cell))
    (test_loss : float) : M (list (list cell) * float) :=
  ' (train_loss, train_acc) <- _train_step ;;
  s <- get ;;
  due <- lift (py_mod_is_zero (epoch s) TEST_EVERY) ;;
  if due : bool then
    let test_loss_previous := test_loss in
    ' (test_loss, test_acc) <- _test_step test_loss_previous ;;
    ret (results ++ [[CInt (epoch s); CFloat train_loss; CFloat train_acc;
                      CFloat test_loss; CFloat test_acc]], test_loss)
  else ret (results, test_loss).

(** The for loop; [break] returns the locals as they are. *)
Fixpoint train_loop (epochs : list Z) (TEST_EVERY : Z)
    (results : list (list cell)) (test_loss : float)
    : M (list (list cell) * float) :=
  match epochs with
  | [] => ret (results, test_loss)
  | epoch :: rest =>
      modify (set_epoch epoch) ;;;
      s <- get ;;
      if patience_ended s then ret (results, test_loss)
      else
        ' (results, test_loss) <- epoch_body TEST_EVERY results test_loss ;;
        train_loop rest TEST_EVERY results test_loss
  end.

Definition train (EPOCHS TEST_EVERY : Z) (PATIENCE : option Z) : M DataFrame :=
  modify (set_PATIENCE PATIENCE) ;;;
  modify (set_patience_curr 0) ;;;
  modify (set_patience_ended false) ;;;
  ' (results, _) <- train_loop (range EPOCHS) TEST_EVERY [] 0%float ;;
  let h := {| columns := history_columns; rows := results |} in
  modify (set_history (Some h)) ;;;
  ret h.

End Wrapper.

(** * Vocabulary of the statements *)

Section Vocabulary.

Context `{Torch}.

(** The mean as the specification words it: the sum of the per-batch values,
    added in iterator order from 0, over the number of batches. *)
Definition spec_mean (values : list float) : float :=
  PrimFloat.div (fold_left PrimFloat.add values 0%float)
                (float_of_len (List.length values)).

(** The loss and the accuracy of one batch under the model of [s]. *)
Definition batch_values (s : Self) (b : X * Y) : float * float :=
  let logits := forward (training s) (model s) (fst b) in
  (loss_item (criterion s) logits (snd b),
   acc_item (acc_fn s) (softmax_argmax logits) (snd b)).

(** [self] after the optimizer stepped on one batch. *)
Definition after_batch (s : Self) (b : X * Y) : Self :=
  let mo := optim_step (optimizer s) (criterion s) (training s) (model s)
              (fst b) (snd b) in
  set_optimizer (snd mo) (set_model (fst mo) s).

(** The per-batch values of a train pass, each taken before that batch's
    optimizer step, in iterator order. *)
Fixpoint train_values (s : Self) (loader : list (X * Y)) : list (float * float) :=
  match loader with
  | [] => []
  | b :: rest => batch_values s b :: train_values (after_batch s b) rest
  end.

(** [self] after the optimizer stepped on every batch of a pass. *)
Definition after_batches (s : Self) (loader : list (X * Y)) : Self :=
  fold_left after_batch loader s.

(** The per-batch values of a test pass. *)
Definition test_values (s : Self) (loader : list (X * Y)) : list (float * float) :=
  map (batch_values s) loader.

(** [self] when the batch loop of [_train_step] (resp. [_test_step]) starts:
    the call is recorded and the mode is set. *)
Definition train_entry (s : Self) : Self :=
  set_training true (set_calls (calls s ++ [Call_train_step (epoch s)]) s).

Definition test_entry (s : Self) : Self :=
  set_training false (set_calls (calls s ++ [Call_test_step (epoch s)]) s).

(** The file the improvement branch of the policy writes. *)
Definition checkpoint_file (s : Self) (test_loss test_acc : float) : file :=
  {| f_dir := PATH s;
     f_name := checkpoint_name (epoch s) test_loss test_acc;
     f_state := model s |}.

(** What a method leaves alone when it only runs batches and the policy. *)
Definition same_setup (s s' : Self) : Prop :=
  epoch s' = epoch s /\ PATIENCE s' = PATIENCE s /\
  train_loader s' = train_loader s /\ test_loader s' = test_loader s /\
  history s' = history s.

(** [self] as [train] sets it up before the loop. *)
Definition train_entry_state (PATIENCE : option Z) (s : Self) : Self :=
  set_patience_ended false (set_patience_curr 0 (set_PATIENCE PATIENCE s)).

End Vocabulary.

(** The epochs in which [_train_step] (resp. [_test_step]) was called. *)
Definition trained_epochs (cs : list call) : list Z :=
  flat_map (fun c => match c with Call_train_step e => [e] | _ => [] end) cs.

Definition tested_epochs (cs : list call) : list Z :=
  flat_map (fun c => match c with Call_test_step e => [e] | _ => [] end) cs.

(** [e % TEST_EVERY == 0] where it does not raise. *)
Definition due (TEST_EVERY e : Z) : bool := e mod TEST_EVERY =? 0.

(** The selectors the two setup methods accept. *)
Definition supported_models : list string :=
  ["efficientnet_b0"; "alexnet"; "vgg11"; "vgg11_bn"].

Definition supported_optimizers : list string := ["SGD"; "Adam"].

(** [x in l]. *)
Definition is_in (x : string) (l : list string) : bool :=
  existsb (String.eqb x) l.

(** Whether a call returned, and what it raised if it did not, without the
    value. *)
Definition returns {A} (r : result A) : result unit :=
  match r with
  | Ok _ => Ok tt
  | Raise e => Raise e
  end.

(** * A stub model, for concrete runs *)

(** Digits of [n / 10^k] with a decimal point, trailing zeros of the fraction
    dropped ([fuel] bounds the zeros to drop). *)
Fixpoint strip_zeros (fuel : nat) (n k : Z) : Z * Z :=
  match fuel with
  | O => (n, k)
  | S fuel' =>
      if (0 <? k) && (n mod 10 =? 0) then strip_zeros fuel' (n / 10) (k - 1)
      else (n, k)
  end.

Fixpoint zeros (n : nat) : string :=
  match n with
  | O => ""
  | S n' => ("0" ++ zeros n')%string
  end.

Definition decimal_str (n k : Z) : string :=
  let '(n, k) := strip_zeros (Z.to_nat k) n k in
  if k =? 0 then (int_str n ++ ".0")%string
  else
    let frac := int_str (n mod 10 ^ k) in
    (int_str (n / 10 ^ k) ++ "." ++
     zeros (Z.to_nat k - String.length frac) ++ frac)%string.

(** The exact decimal expansion of a float.  It is what Python's [str] prints
    for the floats used below, whose expansion has a few digits. *)
Definition exact_float_str (x : float) : string :=
  match Prim2SF x with
  | S754_zero s => if s then "-0.0" else "0.0"
  | S754_infinity s => if s then "-inf" else "inf"
  | S754_nan => "nan"
  | S754_finite s m e =>
      let digits := if 0 <=? e then decimal_str (Z.pos m * 2 ^ e) 0
                    else decimal_str (Z.pos m * 5 ^ (- e)) (- e) in
      ((if s then "-" else "") ++ digits)%string
  end.

(** One weight [w]; the forward pass is [w * x], the loss is the signed error
    [w * x - y], the accuracy is 1 on an exact hit and 0 otherwise, and the
    optimizer step moves the weight by the label times the learning rate the
    optimizer holds.  As in torch, a classifier of negative width and an
    optimizer of negative learning rate are refused; the checkpoint named by
    the empty path does not exist. *)
#[export] Instance Stub : Torch := {|
  params := float;
  optimizer_t := float;
  X := float;
  Y := float;
  logits_t := float;
  preds_t := float;
  classifier_t := Z;
  state_dict_t := float;
  tv_pretrained := fun _ => Ok 0%float;
  freeze_features := fun m => m;
  nn_classifier := fun n =>
    if n <? 0
    then Raise (RuntimeError "Trying to create tensor with negative dimension")
    else Ok n;
  set_classifier := fun m _ => m;
  torch_load := fun path =>
    if String.eqb path ""
    then Raise (OtherError "FileNotFoundError" "No such file or directory")
    else Ok 1%float;
  load_state_dict := fun _ state => (Ok tt, state);
  torch_optim := fun _ _ lr _ =>
    if PrimFloat.ltb lr 0
    then Raise (OtherError "ValueError" "Invalid learning rate")
    else Ok lr;
  forward := fun _ w x => PrimFloat.mul w x;
  softmax_argmax := fun l => l;
  loss_item := fun _ l y => PrimFloat.sub l y;
  acc_item := fun _ p y => if PrimFloat.eqb p y then 1%float else 0%float;
  optim_step := fun lr _ _ w _ y => (PrimFloat.add w (PrimFloat.mul lr y), lr);
  float_str := exact_float_str
|}.

(** A wrapper on the stub: weight [w], one train batch with label [step] (each
    epoch moves the weight by [step]) and one test batch [(1, 0)] (the test
    loss is the weight). *)
Definition stub_self (w step : float) (epoch : Z) (PATIENCE : option Z) : Self :=
  {| LR := 1%float; WEIGHT_DECAY := 0%float; PATH := "runs";
     num_classes := 10; model := w; training := false;
     train_loader := [(1%float, step)]; test_loader := [(1%float, 0%float)];
     criterion := CrossEntropyLoss; acc_fn := multiclass; optimizer := 1%float;
     PATIENCE := PATIENCE; patience_curr := 0; patience_ended := false;
     epoch := epoch; history := None; disk := []; calls := [] |}.

Definition the_history (r : result DataFrame * Self) : DataFrame :=
  match fst r with
  | Ok h => h
  | Raise _ => {| columns := []; rows := [] |}
  end.

(** The stub wrapper with weight 1 and the given test (resp. train) loader. *)
Definition stub_with_test_loader (loader : list (float * float)) : Self :=
  {| LR := 1%float; WEIGHT_DECAY := 0%float; PATH := "runs";
     num_classes := 10; model := 1%float; training := false;
     train_loader := [(1%float, 0%float)]; test_loader := loader;
     criterion := CrossEntropyLoss; acc_fn := multiclass; optimizer := 1%float;
     PATIENCE := None; patience_curr := 0; patience_ended := false;
     epoch := 0; history := None; disk := []; calls := [] |}.

Definition stub_with_train_loader (loader : list (float * float)) : Self :=
  {| LR := 1%float; WEIGHT_DECAY := 0%float; PATH := "runs";
     num_classes := 10; model := 1%float; training := false;
     train_loader := loader; test_loader := [(1%float, 0%float)];
     criterion := CrossEntropyLoss; acc_fn := multiclass; optimizer := 1%float;
     PATIENCE := None; patience_curr := 0; patience_ended := false;
     epoch := 0; history := None; disk := []; calls := [] |}.

(** * Further vocabulary: whole runs *)

Section RunVocabulary.

Context `{Torch}.

(** The parameters and the optimizer after one pass over a train loader, as
    the optimizer steps in training mode decide them, batch after batch. *)
Definition pass_params (crit : criterion_kind) (loader : list (X * Y))
    (mo : params * optimizer_t) : params * optimizer_t :=
  fold_left (fun mo b => optim_step (snd mo) crit true (fst mo) (fst b) (snd b))
            loader mo.

(** What the batches and the policy read but never write. *)
Definition same_config (s s' : Self) : Prop :=
  PATH s' = PATH s /\ LR s' = LR s /\ WEIGHT_DECAY s' = WEIGHT_DECAY s /\
  num_classes s' = num_classes s /\ criterion s' = criterion s /\
  acc_fn s' = acc_fn s.

(** The patience state a run keeps: the limit is the one [train] was given,
    the counter is never negative, a set flag means the counter sits on the
    limit, and under a limit of at least 1 the counter never passes the limit
    and sits on it only with the flag set. *)
Definition patience_invariant (P : option Z) (s : Self) : Prop :=
  PATIENCE s = P /\ 0 <= patience_curr s /\
  (patience_ended s = true -> P = Some (patience_curr s)) /\
  (forall limit, P = Some limit -> 1 <= limit ->
     patience_curr s <= limit /\
     (patience_curr s = limit -> patience_ended s = true)).

(** The files a run has added to those of [s0], and the calls it has made:
    every file lies in the output directory, is named after an epoch that was
    evaluated, and there is at most one per evaluation. *)
Definition checkpoints_invariant (s0 s : Self) : Prop :=
  PATH s = PATH s0 /\
  exists cs new,
    calls s = calls s0 ++ cs /\ disk s = disk s0 ++ new /\
    (List.length new <= List.length (tested_epochs cs))%nat /\
    Forall (fun f => f_dir f = PATH s0 /\
                     exists e loss acc, In e (tested_epochs cs) /\
                       f_name f = checkpoint_name e loss acc) new.

(** The parameters of a run depend on the train passes alone. *)
Definition params_invariant (s0 s : Self) : Prop :=
  criterion s = criterion s0 /\ train_loader s = train_loader s0 /\
  exists cs,
    calls s = calls s0 ++ cs /\
    (model s, optimizer s) =
      Nat.iter (List.length (trained_epochs cs))
        (pass_params (criterion s0) (train_loader s0)) (model s0, optimizer s0).

End RunVocabulary.

(** The table of a run that evaluated nothing. *)
Definition empty_history : DataFrame :=
  {| columns := history_columns; rows := [] |}.

(** The calls one executed epoch makes, in order: the train step, then the
    eval step when the epoch is due. *)
Definition epoch_calls (TEST_EVERY e : Z) : list call :=
  Call_train_step e :: (if due TEST_EVERY e then [Call_test_step e] else []).

(** The mode a step leaves the model in. *)
Definition mode_after (c : call) : bool :=
  match c with
  | Call_train_step _ => true
  | Call_test_step _ => false
  end.

(** * Facts on the float order *)

Lemma SFcompare_antisym (x y : spec_float) :
  SFcompare y x = option_map CompOpp (SFcompare x y).
Proof.
  destruct x as [sx|sx| |sx mx ex], y as [sy|sy| |sy my ey]; simpl;
    try reflexivity;
    try (destruct sx; reflexivity); try (destruct sy; reflexivity);
    try (destruct sx, sy; reflexivity).
  f_equal.
  rewrite (Z.compare_antisym ey ex).
  change (Pos.compare_cont Eq my mx) with (Pos.compare my mx).
  change (Pos.compare_cont Eq mx my) with (Pos.compare mx my).
  rewrite (Pos.compare_antisym my mx).
  destruct sx, sy; simpl; try reflexivity;
    destruct (ey ?= ex)%Z; simpl; try reflexivity;
    destruct (my ?= mx)%positive; reflexivity.
Qed.

Lemma py_lt_asym (x y : float) : py_lt x y = true -> py_lt y x = false.
Proof.
  unfold py_lt. rewrite !ltb_spec. unfold SFltb.
  rewrite (SFcompare_antisym (Prim2SF x) (Prim2SF y)).
  destruct (SFcompare (Prim2SF x) (Prim2SF y)) as [[]|]; simpl; congruence.
Qed.

Lemma py_eq_not_lt (x y : float) :
  py_eq x y = true -> py_lt x y = false /\ py_lt y x = false.
Proof.
  unfold py_eq, py_lt. rewrite FloatAxioms.eqb_spec, !ltb_spec.
  unfold SFeqb, SFltb.
  rewrite (SFcompare_antisym (Prim2SF x) (Prim2SF y)).
  destruct (SFcompare (Prim2SF x) (Prim2SF y)) as [[]|]; simpl; split; congruence.
Qed.

Lemma py_gt_lt (x y : float) : py_gt x y = py_lt y x.
Proof. reflexivity. Qed.

(** * The two passes over a loader *)

Section Passes.

Context `{Torch}.

Lemma train_values_length s loader :
  List.length (train_values s loader) = List.length loader.
Proof.
  revert s; induction loader as [|b rest IH]; intros s; simpl; [reflexivity|].
  now rewrite IH.
Qed.

Lemma train_batches_run loader : forall (s : Self) (l a : float),
  train_batches loader l a s =
  (Ok (fold_left PrimFloat.add (map fst (train_values s loader)) l,
       fold_left PrimFloat.add (map snd (train_values s loader)) a),
   after_batches s loader).
Proof.
  induction loader as [|[x y] rest IH]; intros s l a.
  - reflexivity.
  - cbn [train_batches]. unfold bind at 1. cbn [get].
    destruct (optim_step (optimizer s) (criterion s) (training s) (model s) x y)
      as [m o] eqn:E.
    unfold bind, modify. rewrite IH.
    unfold after_batches. cbn [fold_left train_values map fst snd].
    unfold after_batch, batch_values. cbn [fst snd]. rewrite E. reflexivity.
Qed.

Lemma test_batches_run loader : forall (s : Self) (l a : float),
  test_batches loader l a s =
  (Ok (fold_left PrimFloat.add (map fst (test_values s loader)) l,
       fold_left PrimFloat.add (map snd (test_values s loader)) a),
   s).
Proof.
  induction loader as [|[x y] rest IH]; intros s l a.
  - reflexivity.
  - cbn [test_batches]. unfold bind at 1. cbn [get]. rewrite IH. reflexivity.
Qed.

Lemma patience_policy_ok prev loss acc (s : Self) :
  patience_policy prev loss acc s = (Ok tt, snd (patience_policy prev loss acc s)).
Proof.
  unfold patience_policy, bind, get, modify, ret, torch_save.
  destruct (PATIENCE s) as [limit|]; [|reflexivity].
  destruct (py_lt prev loss && negb (epoch s =? 0)).
  - cbn. destruct (patience_curr s + 1 =? limit); reflexivity.
  - destruct (py_gt prev loss); reflexivity.
Qed.

(** [_train_step] in one equation. *)
Lemma _train_step_run (s : Self) :
  _train_step s =
  let vals := train_values (train_entry s) (train_loader s) in
  let s' := after_batches (train_entry s) (train_loader s) in
  match train_loader s with
  | [] => (Raise ZeroDivisionError, s')
  | _ :: _ => (Ok (spec_mean (map fst vals), spec_mean (map snd vals)), s')
  end.
Proof.
  unfold _train_step, bind, modify, get, lift, ret.
  cbn [train_loader set_training set_calls].
  fold (train_entry s).
  rewrite train_batches_run.
  unfold spec_mean. rewrite !length_map, train_values_length.
  destruct (train_loader s); reflexivity.
Qed.

(** [_test_step] in one equation. *)
Lemma _test_step_run prev (s : Self) :
  _test_step prev s =
  let vals := test_values (test_entry s) (test_loader s) in
  let loss := spec_mean (map fst vals) in
  let acc := spec_mean (map snd vals) in
  match test_loader s with
  | [] => (Raise ZeroDivisionError, test_entry s)
  | _ :: _ => (Ok (loss, acc), snd (patience_policy prev loss acc (test_entry s)))
  end.
Proof.
  unfold _test_step, bind, modify, get, lift, ret.
  cbn [test_loader set_training set_calls].
  fold (test_entry s).
  rewrite test_batches_run.
  unfold spec_mean, test_values. rewrite !length_map.
  destruct (test_loader s) as [|b rest]; [reflexivity|].
  cbn [py_truediv List.length].
  rewrite patience_policy_ok. reflexivity.
Qed.

End Passes.

(** * The patience and checkpoint policy, branch by branch *)

Section Policy.

Context `{Torch}.

Lemma policy_disabled prev loss acc (s : Self) :
  PATIENCE s = None -> snd (patience_policy prev loss acc s) = s.
Proof.
  intros E. unfold patience_policy, bind, get, ret. rewrite E. reflexivity.
Qed.

Lemma policy_increase prev loss acc (s : Self) limit :
  PATIENCE s = Some limit -> py_lt prev loss = true -> epoch s <> 0 ->
  snd (patience_policy prev loss acc s) =
  let s1 := set_patience_curr (patience_curr s + 1) s in
  if patience_curr s + 1 =? limit then set_patience_ended true s1 else s1.
Proof.
  intros E L N. unfold patience_policy, bind, get, ret, modify. rewrite E, L.
  apply Z.eqb_neq in N. rewrite N. cbn.
  destruct (patience_curr s + 1 =? limit); reflexivity.
Qed.

Lemma policy_improve prev loss acc (s : Self) limit :
  PATIENCE s = Some limit ->
  py_lt prev loss && negb (epoch s =? 0) = false ->
  py_gt prev loss = true ->
  snd (patience_policy prev loss acc s) =
  set_disk (disk s ++ [checkpoint_file s loss acc]) (set_patience_curr 0 s).
Proof.
  intros E L G. unfold patience_policy, bind, get, ret, modify, torch_save.
  rewrite E, L, G. reflexivity.
Qed.

Lemma policy_unchanged prev loss acc (s : Self) limit :
  PATIENCE s = Some limit ->
  py_lt prev loss && negb (epoch s =? 0) = false ->
  py_gt prev loss = false ->
  snd (patience_policy prev loss acc s) = s.
Proof.
  intros E L G. unfold patience_policy, bind, get, ret, modify.
  rewrite E, L, G. reflexivity.
Qed.

(** What no branch of the policy touches. *)
Lemma policy_frame prev loss acc (s : Self) :
  let s' := snd (patience_policy prev loss acc s) in
  model s' = model s /\ optimizer s' = optimizer s /\ calls s' = calls s /\
  epoch s' = epoch s /\ PATIENCE s' = PATIENCE s /\ training s' = training s /\
  train_loader s' = train_loader s /\ test_loader s' = test_loader s /\
  history s' = history s.
Proof.
  unfold patience_policy, bind, get, ret, modify, torch_save.
  destruct (PATIENCE s) as [limit|] eqn:E; [|cbn; rewrite E; tauto].
  destruct (py_lt prev loss && negb (epoch s =? 0)).
  - cbn. destruct (patience_curr s + 1 =? limit); cbn; rewrite E; tauto.
  - destruct (py_gt prev loss); cbn; rewrite E; tauto.
Qed.

(** A successful [_test_step] is its entry state followed by the policy on the
    two means. *)
Lemma _test_step_ok prev (s s' : Self) loss acc :
  _test_step prev s = (Ok (loss, acc), s') ->
  test_loader s <> [] /\
  loss = spec_mean (map fst (test_values (test_entry s) (test_loader s))) /\
  acc = spec_mean (map snd (test_values (test_entry s) (test_loader s))) /\
  s' = snd (patience_policy prev loss acc (test_entry s)).
Proof.
  rewrite _test_step_run. cbv zeta.
  destruct (test_loader s) as [|b rest]; [discriminate|].
  intros E. inversion E; subst. repeat split; congruence.
Qed.

Lemma _test_step_raised prev (s s' : Self) e :
  _test_step prev s = (Raise e, s') ->
  test_loader s = [] /\ e = ZeroDivisionError /\ s' = test_entry s.
Proof.
  rewrite _test_step_run. cbv zeta.
  destruct (test_loader s) as [|b rest]; [|discriminate].
  intros E. inversion E; subst. auto.
Qed.

End Policy.

(** * The evaluation step: claims on the policy *)

Section TestStepClaims.

Context `{Torch}.

(** C1 (amended): an evaluation at epoch 0, started from the sentinel previous
    loss 0, never increments the patience counter and never sets the stop
    flag, whatever the test loss is.  The comparison for improvement is still
    made against the sentinel: no checkpoint is written, and the counter is
    left as it is, whenever the test loss is not below 0. *)
Theorem C1_epoch0_no_increment (s s' : Self) (r : result (float * float)) :
  epoch s = 0 ->
  _test_step 0%float s = (r, s') ->
  patience_ended s' = patience_ended s /\
  (patience_curr s' = patience_curr s \/ patience_curr s' = 0) /\
  (forall loss acc, r = Ok (loss, acc) -> py_lt loss 0%float = false ->
     patience_curr s' = patience_curr s /\ disk s' = disk s).
Proof.
  intros E0 R. destruct r as [[loss acc]|e].
  - apply _test_step_ok in R. destruct R as (_ & _ & _ & ->).
    assert (L : py_lt 0%float loss && negb (epoch (test_entry s) =? 0) = false).
    { cbn [test_entry epoch set_training set_calls]. rewrite E0.
      apply andb_false_r. }
    destruct (PATIENCE (test_entry s)) as [limit|] eqn:P.
    + destruct (py_gt 0%float loss) eqn:G.
      * rewrite (policy_improve _ _ _ _ limit P L G). cbn.
        split; [reflexivity|]. split; [right; reflexivity|].
        intros l a Hl Hn. inversion Hl; subst l a.
        rewrite py_gt_lt in G. unfold py_lt in G, Hn. congruence.
      * rewrite (policy_unchanged _ _ _ _ limit P L G). cbn.
        repeat split; auto.
    + rewrite (policy_disabled _ _ _ _ P). cbn. repeat split; auto.
  - apply _test_step_raised in R. destruct R as (_ & _ & ->). cbn.
    repeat split; auto; discriminate.
Qed.

(** C2 (amended): on an epoch that is not the first, with early stopping
    configured, the patience counter goes up by exactly 1 whenever the new
    test loss is strictly greater than the previous recorded test loss. *)
Theorem C2_increment_on_strict_increase (s s' : Self) (prev loss acc : float)
    (limit : Z) :
  PATIENCE s = Some limit ->
  epoch s <> 0 ->
  _test_step prev s = (Ok (loss, acc), s') ->
  py_lt prev loss = true ->
  patience_curr s' = patience_curr s + 1.
Proof.
  intros P N R L. apply _test_step_ok in R. destruct R as (_ & _ & _ & ->).
  rewrite (policy_increase prev loss acc (test_entry s) limit P L N). cbv zeta.
  destruct (patience_curr (test_entry s) + 1 =? limit); reflexivity.
Qed.

(** C3: on a non-first epoch, an evaluation whose test loss equals the previous
    recorded test loss neither resets nor increments the patience counter,
    does not set the stop flag and writes no checkpoint. *)
Theorem C3_tie_is_noop (s s' : Self) (prev loss acc : float) :
  epoch s <> 0 ->
  _test_step prev s = (Ok (loss, acc), s') ->
  py_eq loss prev = true ->
  patience_curr s' = patience_curr s /\
  patience_ended s' = patience_ended s /\
  disk s' = disk s.
Proof.
  intros _ R E. apply _test_step_ok in R. destruct R as (_ & _ & _ & ->).
  destruct (py_eq_not_lt _ _ E) as [L1 L2].
  destruct (PATIENCE (test_entry s)) as [limit|] eqn:P.
  - rewrite (policy_unchanged prev loss acc _ limit P).
    + cbn. auto.
    + rewrite L2. reflexivity.
    + rewrite py_gt_lt. exact L1.
  - rewrite (policy_disabled _ _ _ _ P). cbn. auto.
Qed.

(** C4: with early stopping configured, an evaluation whose test loss is
    strictly less than the previous recorded test loss resets the patience
    counter to 0 and appends one file to the output directory: its content is
    the model's state and its name is the epoch, the mean test loss and the
    mean test accuracy the step returns, joined by underscores, plus the
    extension .pth. *)
Theorem C4_improvement_checkpoints (s s' : Self) (prev loss acc : float)
    (limit : Z) :
  PATIENCE s = Some limit ->
  _test_step prev s = (Ok (loss, acc), s') ->
  py_lt loss prev = true ->
  patience_curr s' = 0 /\
  disk s' = disk s ++ [ {| f_dir := PATH s;
                           f_name := (int_str (epoch s) ++ "_" ++ float_str loss
                                      ++ "_" ++ float_str acc ++ ".pth")%string;
                           f_state := model s' |} ] /\
  model s' = model s.
Proof.
  intros P R L. apply _test_step_ok in R. destruct R as (_ & _ & _ & ->).
  rewrite (policy_improve prev loss acc (test_entry s) limit P).
  - cbn. auto.
  - rewrite (py_lt_asym _ _ L). reflexivity.
  - rewrite py_gt_lt. exact L.
Qed.

(** C7: on a non-empty loader, the train step and the eval step return the
    per-batch losses and accuracies summed in iterator order and divided by
    the number of batches. *)
Theorem C7_means_over_batches (s : Self) (prev : float) :
  (train_loader s <> [] ->
   let vals := train_values (train_entry s) (train_loader s) in
   List.length vals = List.length (train_loader s) /\
   fst (_train_step s) =
   Ok (PrimFloat.div (fold_left PrimFloat.add (map fst vals) 0%float)
         (float_of_len (List.length (train_loader s))),
       PrimFloat.div (fold_left PrimFloat.add (map snd vals) 0%float)
         (float_of_len (List.length (train_loader s))))) /\
  (test_loader s <> [] ->
   let vals := test_values (test_entry s) (test_loader s) in
   List.length vals = List.length (test_loader s) /\
   fst (_test_step prev s) =
   Ok (PrimFloat.div (fold_left PrimFloat.add (map fst vals) 0%float)
         (float_of_len (List.length (test_loader s))),
       PrimFloat.div (fold_left PrimFloat.add (map snd vals) 0%float)
         (float_of_len (List.length (test_loader s))))).
Proof.
  split; intros NE; cbv zeta.
  - rewrite _train_step_run. cbv zeta. unfold spec_mean.
    rewrite !length_map, train_values_length.
    destruct (train_loader s); [congruence|]. split; reflexivity.
  - rewrite _test_step_run. cbv zeta. unfold spec_mean, test_values.
    rewrite !length_map.
    destruct (test_loader s); [congruence|]. split; reflexivity.
Qed.

(** C8: the eval step leaves the model's parameters (and the optimizer) as
    they were; the train step's parameters are those the optimizer steps
    produce, batch after batch. *)
Theorem C8_test_step_keeps_model (s : Self) (prev : float) :
  model (snd (_test_step prev s)) = model s /\
  optimizer (snd (_test_step prev s)) = optimizer s /\
  model (snd (_train_step s)) =
    model (fold_left after_batch (train_loader s) (train_entry s)).
Proof.
  rewrite _test_step_run, _train_step_run. cbv zeta.
  repeat split.
  - destruct (test_loader s); [reflexivity|]. cbn [snd].
    now rewrite (proj1 (policy_frame _ _ _ _)).
  - destruct (test_loader s); [reflexivity|]. cbn [snd].
    now rewrite (proj1 (proj2 (policy_frame _ _ _ _))).
  - destruct (train_loader s); reflexivity.
Qed.

(** C10: a train (or test) loader that yields no batch makes the train step
    (or the eval step) raise ZeroDivisionError when it computes the mean; with
    at least one batch the step returns. *)
Theorem C10_empty_loader_raises (s : Self) (prev : float) :
  (train_loader s = [] -> fst (_train_step s) = Raise ZeroDivisionError) /\
  (test_loader s = [] -> fst (_test_step prev s) = Raise ZeroDivisionError) /\
  (train_loader s <> [] -> exists v, fst (_train_step s) = Ok v) /\
  (test_loader s <> [] -> exists v, fst (_test_step prev s) = Ok v).
Proof.
  rewrite _test_step_run, _train_step_run. cbv zeta.
  repeat split; intros E.
  - rewrite E. reflexivity.
  - rewrite E. reflexivity.
  - destruct (train_loader s); [congruence|]. eexists. reflexivity.
  - destruct (test_loader s); [congruence|]. eexists. reflexivity.
Qed.

End TestStepClaims.

(** * The epoch loop *)

Section Loop.

Context `{Torch}.

Lemma after_batches_frame loader : forall s : Self,
  let s' := after_batches s loader in
  same_setup s s' /\ calls s' = calls s /\ disk s' = disk s /\
  patience_curr s' = patience_curr s /\ patience_ended s' = patience_ended s.
Proof.
  unfold same_setup.
  induction loader as [|b rest IH]; intros s; cbn.
  - tauto.
  - specialize (IH (after_batch s b)). cbv zeta in IH.
    unfold after_batches in IH. cbn in IH. tauto.
Qed.

Lemma _train_step_frame (s : Self) :
  let s' := snd (_train_step s) in
  same_setup s s' /\ calls s' = calls s ++ [Call_train_step (epoch s)] /\
  disk s' = disk s /\
  patience_curr s' = patience_curr s /\ patience_ended s' = patience_ended s.
Proof.
  rewrite _train_step_run. cbv zeta.
  pose proof (after_batches_frame (train_loader s) (train_entry s)) as F.
  cbv zeta in F. unfold same_setup in *. cbn in F.
  destruct (train_loader s); cbn [snd]; tauto.
Qed.

Lemma _test_step_frame prev (s : Self) :
  let s' := snd (_test_step prev s) in
  same_setup s s' /\ calls s' = calls s ++ [Call_test_step (epoch s)] /\
  (0 <= patience_curr s -> 0 <= patience_curr s').
Proof.
  rewrite _test_step_run. cbv zeta. unfold same_setup.
  destruct (test_loader s) as [|b rest] eqn:E; cbn [snd].
  - cbn. rewrite E. tauto.
  - set (loss := spec_mean _). set (acc := spec_mean _).
    pose proof (policy_frame prev loss acc (test_entry s)) as F. cbv zeta in F.
    cbn in F. rewrite E in F.
    repeat split; try tauto.
    intros G.
    destruct (PATIENCE (test_entry s)) as [limit|] eqn:P.
    + destruct (py_lt prev loss && negb (epoch (test_entry s) =? 0)) eqn:L.
      * apply andb_prop in L. destruct L as [L N].
        apply negb_true_iff, Z.eqb_neq in N.
        rewrite (policy_increase _ _ _ _ limit P L N). cbv zeta.
        destruct (_ =? limit); cbn; lia.
      * destruct (py_gt prev loss) eqn:G'.
        -- rewrite (policy_improve _ _ _ _ limit P L G'). cbn. lia.
        -- rewrite (policy_unchanged _ _ _ _ limit P L G'). cbn. lia.
    + rewrite (policy_disabled _ _ _ _ P). cbn. lia.
Qed.

(** [epoch_body] in one equation. *)
Lemma epoch_body_run TE results test_loss (s : Self) :
  epoch_body TE results test_loss s =
  match _train_step s with
  | (Raise e, s1) => (Raise e, s1)
  | (Ok (train_loss, train_acc), s1) =>
      match py_mod_is_zero (epoch s1) TE with
      | Raise e => (Raise e, s1)
      | Ok false => (Ok (results, test_loss), s1)
      | Ok true =>
          match _test_step test_loss s1 with
          | (Raise e, s2) => (Raise e, s2)
          | (Ok (test_loss', test_acc), s2) =>
              (Ok (results ++ [[CInt (epoch s1); CFloat train_loss;
                                CFloat train_acc; CFloat test_loss';
                                CFloat test_acc]], test_loss'), s2)
          end
      end
  end.
Proof.
  unfold epoch_body, bind, get, lift, ret.
  destruct (_train_step s) as [[[trl tra]|e] s1]; [|reflexivity].
  destruct (py_mod_is_zero (epoch s1) TE) as [[|]|e]; try reflexivity.
  destruct (_test_step test_loss s1) as [[[l a]|e] s2]; reflexivity.
Qed.

(** One iteration, as the history and the call trace see it. *)
Lemma epoch_body_ok TE results test_loss (s s' : Self) results' test_loss' :
  epoch_body TE results test_loss s = (Ok (results', test_loss'), s') ->
  TE <> 0 /\ same_setup s s' /\
  (0 <= patience_curr s -> 0 <= patience_curr s') /\
  if due TE (epoch s) then
    calls s' = calls s ++ [Call_train_step (epoch s); Call_test_step (epoch s)] /\
    exists a b c d, results' = results ++ [[CInt (epoch s); a; b; c; d]]
  else
    calls s' = calls s ++ [Call_train_step (epoch s)] /\
    results' = results /\ test_loss' = test_loss /\
    patience_ended s' = patience_ended s /\
    patience_curr s' = patience_curr s /\ disk s' = disk s.
Proof.
  rewrite epoch_body_run.
  pose proof (_train_step_frame s) as F1. cbv zeta in F1.
  destruct (_train_step s) as [[[trl tra]|e] s1]; [|discriminate].
  cbn [snd] in F1. destruct F1 as ((Fe & Fp & Ftr & Fte & Fh) & Fc & Fd & Fpc & Fpe).
  unfold py_mod_is_zero, due. rewrite Fe.
  destruct (TE =? 0) eqn:Z0; [discriminate|]. apply Z.eqb_neq in Z0.
  destruct (epoch s mod TE =? 0).
  - pose proof (_test_step_frame test_loss s1) as F2. cbv zeta in F2.
    destruct (_test_step test_loss s1) as [[[l a]|e] s2]; [|discriminate].
    cbn [snd] in F2. destruct F2 as ((Ge & Gp & Gtr & Gte & Gh) & Gc & Gpc).
    intros E. inversion E; subst. unfold same_setup.
    repeat split; try congruence.
    + intros G. apply Gpc. lia.
    + rewrite Gc, Fc, Fe, <- app_assoc. reflexivity.
    + eauto.
  - intros E. inversion E; subst. unfold same_setup.
    repeat split; try congruence; intros; lia.
Qed.

End Loop.

Section LoopFacts.

Context `{Torch}.

(** [train] in one equation. *)
Lemma train_run EPOCHS TE P (s : Self) :
  train EPOCHS TE P s =
  match train_loop (range EPOCHS) TE [] 0%float (train_entry_state P s) with
  | (Ok (results, _), s') =>
      let h := {| columns := history_columns; rows := results |} in
      (Ok h, set_history (Some h) s')
  | (Raise e, s') => (Raise e, s')
  end.
Proof.
  unfold train, bind, modify, ret. cbn.
  fold (train_entry_state P s).
  destruct (train_loop (range EPOCHS) TE [] 0%float (train_entry_state P s))
    as [[[results tl]|e] s']; reflexivity.
Qed.

(** One unfolding of the loop. *)
Lemma train_loop_cons e rest TE results tl (s : Self) :
  train_loop (e :: rest) TE results tl s =
  if patience_ended s then (Ok (results, tl), set_epoch e s)
  else match epoch_body TE results tl (set_epoch e s) with
       | (Ok (results', tl'), s') => train_loop rest TE results' tl' s'
       | (Raise x, s') => (Raise x, s')
       end.
Proof.
  cbn [train_loop]. unfold bind, modify, get, ret. cbn.
  destruct (patience_ended s); [reflexivity|].
  destruct (epoch_body TE results tl (set_epoch e s)) as [[[r t]|x] s'];
    reflexivity.
Qed.

(** Once the flag is set the loop breaks at once: nothing but [self.epoch]
    changes. *)
Lemma train_loop_stopped epochs TE results tl (s : Self) :
  patience_ended s = true ->
  train_loop epochs TE results tl s =
  (Ok (results, tl), match epochs with [] => s | e :: _ => set_epoch e s end).
Proof.
  intros E. destruct epochs as [|e rest]; [reflexivity|].
  rewrite train_loop_cons, E. reflexivity.
Qed.

(** A loop that ended with the flag down did not break: it can be continued. *)
Lemma train_loop_app epochs more TE : forall results tl (s : Self) results1 tl1 s1,
  train_loop epochs TE results tl s = (Ok (results1, tl1), s1) ->
  patience_ended s1 = false ->
  train_loop (epochs ++ more) TE results tl s = train_loop more TE results1 tl1 s1.
Proof.
  induction epochs as [|e rest IH]; intros results tl s results1 tl1 s1 R E.
  - cbn in R. inversion R; subst. reflexivity.
  - cbn [app]. rewrite train_loop_cons in *.
    destruct (patience_ended s) eqn:P.
    + inversion R; subst. cbn in E. congruence.
    + destruct (epoch_body TE results tl (set_epoch e s)) as [[[r t]|x] s'];
        [|discriminate].
      now apply IH.
Qed.

(** The loop invariant: the rows appended are those of the executed epochs
    that are due, the executed epochs are a prefix of the epochs given, and
    the patience counter stays non-negative. *)
Lemma train_loop_rows epochs TE : forall results tl (s : Self) results' tl' s',
  train_loop epochs TE results tl s = (Ok (results', tl'), s') ->
  PATIENCE s' = PATIENCE s /\
  (0 <= patience_curr s -> 0 <= patience_curr s') /\
  exists k new_rows,
    (k <= List.length epochs)%nat /\
    trained_epochs (calls s') = trained_epochs (calls s) ++ firstn k epochs /\
    tested_epochs (calls s') =
      tested_epochs (calls s) ++ filter (due TE) (firstn k epochs) /\
    results' = results ++ new_rows /\
    map row_epoch new_rows = map Some (filter (due TE) (firstn k epochs)) /\
    Forall (fun r => List.length r = 5%nat) new_rows /\
    (patience_ended s' = false -> k = List.length epochs).
Proof.
  induction epochs as [|e rest IH]; intros results tl s results' tl' s' R.
  - cbn in R. inversion R; subst. split; [reflexivity|]. split; [auto|].
    exists 0%nat, []. cbn. rewrite !app_nil_r. repeat split; auto.
  - rewrite train_loop_cons in R. destruct (patience_ended s) eqn:P.
    + inversion R; subst. split; [reflexivity|]. split; [auto|].
      exists 0%nat, []. cbn. rewrite !app_nil_r.
      repeat split; auto; try lia. congruence.
    + destruct (epoch_body TE results tl (set_epoch e s)) as [[[r t]|x] s1] eqn:B;
        [|discriminate].
      apply epoch_body_ok in B.
      destruct B as (NZ & (Be & Bp & _) & Bpc & B). cbn in Be, Bp, Bpc, B.
      apply IH in R.
      destruct R as (Rp & Rpc & k & new_rows & Hk & Htr & Hte & Hres & Hmap & Hlen & Hfull).
      split; [congruence|]. split; [auto|].
      destruct (due TE e) eqn:D.
      * destruct B as (Bc & a & b & c & d & Br).
        exists (S k), ([CInt e; a; b; c; d] :: new_rows).
        cbn [firstn filter List.length]. rewrite D.
        rewrite Htr, Hte, Bc. unfold trained_epochs, tested_epochs.
        rewrite !flat_map_app. cbn. rewrite <- !app_assoc. cbn.
        repeat split; auto; try lia.
        -- rewrite Hres, Br, <- app_assoc. reflexivity.
        -- now rewrite Hmap.
      * destruct B as (Bc & Br & _).
        exists (S k), new_rows.
        cbn [firstn filter List.length]. rewrite D.
        rewrite Htr, Hte, Bc. unfold trained_epochs, tested_epochs.
        rewrite !flat_map_app. cbn. rewrite <- !app_assoc, ?app_nil_r. cbn.
        repeat split; auto; try lia; congruence.
Qed.

Lemma range_snoc e : 0 <= e -> range (e + 1) = range e ++ [e].
Proof.
  intros G. unfold range.
  replace (Z.to_nat (e + 1)) with (Z.to_nat e + 1)%nat by lia.
  rewrite seq_app, map_app. cbn. rewrite Z2Nat.id by lia. reflexivity.
Qed.

Lemma range_from_prefix a b :
  0 <= a <= b -> exists more, range b = range a ++ more.
Proof.
  intros G. unfold range.
  replace (Z.to_nat b) with (Z.to_nat a + Z.to_nat (b - a))%nat by lia.
  rewrite seq_app, map_app. eauto.
Qed.

End LoopFacts.

(** * The training loop: claims *)

Section TrainClaims.

Context `{Torch}.

(** An evaluation that brings the counter up to the limit sets the flag. *)
Lemma _test_step_reaches_limit prev (s s' : Self) r limit :
  PATIENCE s = Some limit -> 0 <= patience_curr s ->
  _test_step prev s = (r, s') ->
  patience_curr s' = patience_curr s + 1 -> patience_curr s' = limit ->
  patience_ended s' = true.
Proof.
  intros P G R I L. destruct r as [[loss acc]|e].
  - apply _test_step_ok in R. destruct R as (_ & _ & _ & R). subst s'.
    change (PATIENCE (test_entry s) = Some limit) in P.
    revert I L.
    destruct (py_lt prev loss && negb (epoch (test_entry s) =? 0)) eqn:C.
    + apply andb_prop in C. destruct C as [C N].
      apply negb_true_iff, Z.eqb_neq in N.
      rewrite (policy_increase _ _ _ _ limit P C N). cbv zeta.
      destruct (patience_curr (test_entry s) + 1 =? limit) eqn:Q; cbn; [auto|].
      apply Z.eqb_neq in Q. cbn in Q. intros. lia.
    + destruct (py_gt prev loss) eqn:C'.
      * rewrite (policy_improve _ _ _ _ limit P C C'). cbn. intros. lia.
      * rewrite (policy_unchanged _ _ _ _ limit P C C'). cbn. intros. lia.
  - apply _test_step_raised in R. destruct R as (_ & _ & ->). cbn in I. lia.
Qed.

Lemma epoch_body_reaches_limit TE results tl (s s' : Self) results' tl' limit :
  epoch_body TE results tl s = (Ok (results', tl'), s') ->
  PATIENCE s = Some limit -> 0 <= patience_curr s ->
  patience_curr s' = patience_curr s + 1 -> patience_curr s' = limit ->
  patience_ended s' = true /\
  exists a b c d, results' = results ++ [[CInt (epoch s); a; b; c; d]].
Proof.
  intros B P G I L. pose proof (epoch_body_ok _ _ _ _ _ _ _ B) as K.
  destruct K as (_ & _ & _ & K).
  destruct (due TE (epoch s)) eqn:D.
  - split; [|tauto]. rewrite epoch_body_run in B.
    pose proof (_train_step_frame s) as F. cbv zeta in F.
    destruct (_train_step s) as [[[trl tra]|x] s1]; [|discriminate].
    cbn [snd] in F. destruct F as ((Fe & Fp & _) & _ & _ & Fpc & _).
    destruct (py_mod_is_zero (epoch s1) TE) as [[|]|x]; try discriminate.
    + destruct (_test_step tl s1) as [[[l a]|x] s2] eqn:R; [|discriminate].
      inversion B as [[Hr Ht Hs]]. subst s2.
      eapply _test_step_reaches_limit; [ | | exact R | | exact L ];
        [rewrite Fp; exact P | lia | lia].
    + inversion B as [[Hr Ht Hs]]. subst s1. lia.
  - lia.
Qed.

(** C5: let the evaluation of epoch [e] bring the patience counter up to the
    configured limit.  Then the stop flag is set; the record of epoch [e] is
    still appended to the history; and a run with any larger number of epochs
    returns the same history and leaves the same calls of the train and eval
    steps, the same files, the same model and the same counter: after epoch
    [e] no train step, no evaluation, no checkpoint and no record is added. *)
Theorem C5_stop_takes_effect_next_epoch (s s0 s1 : Self) (e TE limit : Z)
    (h0 h1 : DataFrame) :
  0 <= e ->
  train e TE (Some limit) s = (Ok h0, s0) ->
  patience_ended s0 = false ->
  train (e + 1) TE (Some limit) s = (Ok h1, s1) ->
  patience_curr s1 = patience_curr s0 + 1 ->
  patience_curr s1 = limit ->
  patience_ended s1 = true /\
  (exists a b c d, rows h1 = rows h0 ++ [[CInt e; a; b; c; d]]) /\
  forall EPOCHS, e + 1 <= EPOCHS ->
    exists s2, train EPOCHS TE (Some limit) s = (Ok h1, s2) /\
      calls s2 = calls s1 /\ disk s2 = disk s1 /\ model s2 = model s1 /\
      optimizer s2 = optimizer s1 /\ patience_curr s2 = patience_curr s1 /\
      patience_ended s2 = true /\ history s2 = Some h1.
Proof.
  intros G R0 E0 R1 I L. rewrite train_run in R0, R1.
  set (init := train_entry_state (Some limit) s) in *.
  destruct (train_loop (range e) TE [] 0%float init) as [[[r0 t0]|x] s0'] eqn:L0;
    [|discriminate].
  cbv zeta in R0. inversion R0; subst h0 s0. clear R0. cbn in E0, I.
  destruct (train_loop_rows _ _ _ _ _ _ _ _ L0) as (P0 & G0 & _).
  specialize (G0 (Z.le_refl 0)). change (PATIENCE init) with (Some limit) in P0.
  rewrite (range_snoc e G), (train_loop_app _ [e] _ _ _ _ _ _ _ L0 E0) in R1.
  rewrite train_loop_cons, E0 in R1.
  destruct (epoch_body TE r0 t0 (set_epoch e s0')) as [[[r1 t1]|x] s1'] eqn:B;
    [|discriminate].
  cbn [train_loop] in R1. unfold ret in R1. cbv zeta in R1.
  inversion R1; subst h1 s1. clear R1. cbn in I, L. cbn [rows].
  destruct (epoch_body_reaches_limit _ _ _ _ _ _ _ limit B P0 G0 I L)
    as (E1 & a & b & c & d & Hrow).
  cbn [epoch set_epoch] in Hrow.
  split; [exact E1|]. split; [eauto|].
  intros EPOCHS GE.
  destruct (range_from_prefix (e + 1) EPOCHS ltac:(lia)) as [more Hr].
  rewrite train_run. fold init.
  rewrite Hr, (range_snoc e G), <- app_assoc.
  rewrite (train_loop_app _ ([e] ++ more) _ _ _ _ _ _ _ L0 E0).
  cbn [app]. rewrite train_loop_cons, E0, B.
  rewrite (train_loop_stopped more TE r1 t1 s1' E1). cbv zeta.
  eexists. split; [reflexivity|].
  destruct more; cbn; repeat split; auto.
Qed.

(** C6: the history [train] returns has the five columns epoch, train_loss,
    train_acc, test_loss, test_acc in that order, every row has five cells,
    and its rows are, in order, one per executed epoch [e] with
    [e mod TEST_EVERY = 0]: the executed epochs are a prefix of
    [range(EPOCHS)], all of it unless the run stopped early, and they are the
    epochs whose train step ran; the evaluations ran on the due ones.  With
    TEST_EVERY = 2 and EPOCHS = 6, a run that did not stop early has the rows
    of epochs 0, 2 and 4, three in all. *)
Theorem C6_history_rows (s s' : Self) (EPOCHS TE : Z) (P : option Z)
    (h : DataFrame) :
  train EPOCHS TE P s = (Ok h, s') ->
  columns h = ["epoch"; "train_loss"; "train_acc"; "test_loss"; "test_acc"] /\
  Forall (fun r => List.length r = 5%nat) (rows h) /\
  (exists k, (k <= List.length (range EPOCHS))%nat /\
     let executed := firstn k (range EPOCHS) in
     trained_epochs (calls s') = trained_epochs (calls s) ++ executed /\
     tested_epochs (calls s') =
       tested_epochs (calls s) ++ filter (fun e => e mod TE =? 0) executed /\
     map row_epoch (rows h) = map Some (filter (fun e => e mod TE =? 0) executed) /\
     (patience_ended s' = false -> executed = range EPOCHS)) /\
  (EPOCHS = 6 -> TE = 2 -> patience_ended s' = false ->
     map row_epoch (rows h) = [Some 0; Some 2; Some 4] /\
     List.length (rows h) = 3%nat).
Proof.
  intros R. rewrite train_run in R.
  destruct (train_loop (range EPOCHS) TE [] 0%float (train_entry_state P s))
    as [[[results tl]|x] s1] eqn:L; [|discriminate].
  cbv zeta in R. inversion R; subst h s'. clear R. cbn [columns rows].
  destruct (train_loop_rows _ _ _ _ _ _ _ _ L)
    as (_ & _ & k & new_rows & Hk & Htr & Hte & Hres & Hmap & Hlen & Hfull).
  cbn [app] in Hres. subst results.
  change (calls (train_entry_state P s)) with (calls s) in Htr, Hte.
  change (patience_ended (set_history
            (Some {| columns := history_columns; rows := new_rows |}) s1))
    with (patience_ended s1).
  change (calls (set_history
            (Some {| columns := history_columns; rows := new_rows |}) s1))
    with (calls s1).
  assert (Full : patience_ended s1 = false -> firstn k (range EPOCHS) = range EPOCHS).
  { intros E. rewrite (Hfull E). apply firstn_all. }
  split; [reflexivity|]. split; [exact Hlen|]. split.
  - exists k. cbv zeta. repeat split; auto.
  - intros -> -> E. rewrite (Full E) in Hmap.
    split; [exact Hmap|].
    apply (f_equal (@List.length _)) in Hmap. rewrite length_map in Hmap.
    exact Hmap.
Qed.

End TrainClaims.

(** * Setup: the selectors *)

Section SetupClaims.

Context `{Torch}.

(** The run returns when both loaders yield a batch and TEST_EVERY is not 0. *)
Lemma _train_step_returns (s : Self) :
  train_loader s <> [] -> exists v s1, _train_step s = (Ok v, s1).
Proof.
  intros N. rewrite _train_step_run. cbv zeta.
  destruct (train_loader s); [now elim N|]. eauto.
Qed.

Lemma _test_step_returns prev (s : Self) :
  test_loader s <> [] -> exists v s1, _test_step prev s = (Ok v, s1).
Proof.
  intros N. rewrite _test_step_run. cbv zeta.
  destruct (test_loader s); [now elim N|]. eauto.
Qed.

Lemma epoch_body_returns TE results tl (s : Self) :
  train_loader s <> [] -> test_loader s <> [] -> TE <> 0 ->
  exists results' tl' s', epoch_body TE results tl s = (Ok (results', tl'), s').
Proof.
  intros NTr NTe NZ. rewrite epoch_body_run.
  pose proof (_train_step_frame s) as F. cbv zeta in F.
  destruct (_train_step_returns s NTr) as ([trl tra] & s1 & E).
  rewrite E in F |- *. cbn [snd] in F. destruct F as ((_ & _ & _ & Fte & _) & _).
  unfold py_mod_is_zero. apply Z.eqb_neq in NZ. rewrite NZ.
  destruct (epoch s1 mod TE =? 0); [|eauto].
  rewrite <- Fte in NTe.
  destruct (_test_step_returns tl s1 NTe) as ([l a] & s2 & ->). eauto.
Qed.

Lemma train_loop_returns TE epochs : forall results tl (s : Self),
  train_loader s <> [] -> test_loader s <> [] -> TE <> 0 ->
  exists results' tl' s', train_loop epochs TE results tl s = (Ok (results', tl'), s').
Proof.
  induction epochs as [|e rest IH]; intros results tl s NTr NTe NZ.
  - cbn. unfold ret. eauto.
  - rewrite train_loop_cons. destruct (patience_ended s); [eauto|].
    destruct (epoch_body_returns TE results tl (set_epoch e s) NTr NTe NZ)
      as (r & t & s1 & B).
    rewrite B. apply epoch_body_ok in B.
    destruct B as (_ & (_ & _ & Ftr & Fte & _) & _). cbn in Ftr, Fte.
    apply IH; congruence.
Qed.

Lemma train_returns EPOCHS TE P (s : Self) :
  train_loader s <> [] -> test_loader s <> [] -> TE <> 0 ->
  exists h s', train EPOCHS TE P s = (Ok h, s').
Proof.
  intros NTr NTe NZ. rewrite train_run.
  destruct (train_loop_returns TE (range EPOCHS) [] 0%float
              (train_entry_state P s) NTr NTe NZ) as (r & t & s' & E).
  rewrite E. cbv zeta. eauto.
Qed.

(** [load_model] in one equation: the dispatch, then the collaborators in the
    order of the source, each leaving the object as the lines before it did. *)
Lemma load_model_run n sel checkpoint (s : Self) :
  load_model n sel checkpoint s =
  match select_arch sel with
  | Raise e => (Raise e, s)
  | Ok a =>
      match tv_pretrained a with
      | Raise e => (Raise e, s)
      | Ok m =>
          match nn_classifier n with
          | Raise e => (Raise e, set_model (freeze_features m) s)
          | Ok c =>
              let s1 := set_model (set_classifier (freeze_features m) c) s in
              match checkpoint with
              | None => (Ok tt, s1)
              | Some path =>
                  match torch_load path with
                  | Raise e => (Raise e, s1)
                  | Ok state =>
                      (fst (load_state_dict (model s1) state),
                       set_model (snd (load_state_dict (model s1) state)) s1)
                  end
              end
          end
      end
  end.
Proof.
  unfold load_model, bind, lift, modify, ret.
  destruct (select_arch sel) as [a|e]; [|reflexivity].
  destruct (tv_pretrained a) as [m|e]; [|reflexivity].
  destruct (nn_classifier n) as [c|e]; [|reflexivity].
  destruct checkpoint as [path|]; [|reflexivity].
  destruct (torch_load path) as [state|e]; [|reflexivity].
  cbn [model set_model].
  destruct (load_state_dict (set_classifier (freeze_features m) c) state);
    reflexivity.
Qed.

Lemma select_arch_supported sel :
  if is_in sel supported_models then exists a, select_arch sel = Ok a
  else select_arch sel = Raise (RuntimeError model_error).
Proof.
  unfold select_arch, is_in, supported_models. cbn [existsb].
  destruct (String.eqb sel "efficientnet_b0"); [cbn; eauto|].
  destruct (String.eqb sel "alexnet"); [cbn; eauto|].
  destruct (String.eqb sel "vgg11"); [cbn; eauto|].
  destruct (String.eqb sel "vgg11_bn"); [cbn; eauto|].
  reflexivity.
Qed.

(** C9 (amended): [load_model] raises its own error exactly on a model
    selector outside efficientnet_b0, alexnet, vgg11, vgg11_bn, and
    [init_optim] on an optimizer selector outside SGD, Adam.  The error is a
    RuntimeError whose message is a fixed text that names the parameter, the
    same for every invalid value; [load_model] then leaves the object
    untouched, and [init_optim] has by then set only the criterion and the
    accuracy metric: no step of training has run.  On a supported selector
    the check itself raises nothing: an error of [load_model] is then the
    error of the pretrained constructor, of the classifier construction or of
    the checkpoint loading, an error of [init_optim] is the error of the
    optimizer constructor, and either call returns when these return. *)
Theorem C9_setup_errors (s : Self) (n : Z) (checkpoint : option string)
    (sel : string) :
  (if is_in sel supported_models
   then exists a, select_arch sel = Ok a /\
     (forall e, fst (load_model n sel checkpoint s) = Raise e ->
        tv_pretrained a = Raise e \/ nn_classifier n = Raise e \/
        exists path, checkpoint = Some path /\
          (torch_load path = Raise e \/
           exists m state, torch_load path = Ok state /\
             fst (load_state_dict m state) = Raise e)) /\
     (forall m c, tv_pretrained a = Ok m -> nn_classifier n = Ok c ->
        match checkpoint with
        | None => fst (load_model n sel checkpoint s) = Ok tt
        | Some path =>
            forall state, torch_load path = Ok state ->
              fst (load_model n sel checkpoint s) =
              fst (load_state_dict (set_classifier (freeze_features m) c) state)
        end)
   else load_model n sel checkpoint s =
        (Raise (RuntimeError "Incorrect `model` parameter. Check type hint."), s)) /\
  (if is_in sel supported_optimizers
   then exists kind,
     fst (init_optim sel s) =
     returns (torch_optim kind (model s) (LR s) (WEIGHT_DECAY s))
   else fst (init_optim sel s) =
        Raise (RuntimeError "Incorrect `optimizer` parameter. Check type hint.") /\
        optimizer (snd (init_optim sel s)) = optimizer s) /\
  calls (snd (load_model n sel checkpoint s)) = calls s /\
  calls (snd (init_optim sel s)) = calls s /\
  model (snd (init_optim sel s)) = model s.
Proof.
  split; [|split; [|split; [|split]]].
  - pose proof (select_arch_supported sel) as S.
    destruct (is_in sel supported_models).
    + destruct S as [a S]. exists a. split; [exact S|].
      rewrite load_model_run, S. cbv zeta. split.
      * intros e. destruct (tv_pretrained a) as [m|e1]; [|intros [= ->]; auto].
        destruct (nn_classifier n) as [c|e1]; [|intros [= ->]; auto].
        destruct checkpoint as [path|]; [|discriminate].
        destruct (torch_load path) as [state|e1] eqn:L.
        -- cbn [fst]. intros R. right; right. exists path.
           split; [reflexivity|]. right. eauto.
        -- intros [= ->]. right; right. exists path. auto.
      * intros m c -> ->. destruct checkpoint as [path|]; [|reflexivity].
        intros state ->. reflexivity.
    + rewrite load_model_run, S. reflexivity.
  - unfold init_optim, is_in, supported_optimizers, bind, lift, modify, raise,
      get, returns. cbn [existsb].
    destruct (String.eqb sel "Adam") eqn:A, (String.eqb sel "SGD") eqn:B;
      cbn [orb fst snd].
    + exists Adam. destruct (torch_optim Adam _ _ _); reflexivity.
    + exists Adam. destruct (torch_optim Adam _ _ _); reflexivity.
    + exists SGD. destruct (torch_optim SGD _ _ _); reflexivity.
    + split; reflexivity.
  - rewrite load_model_run. cbv zeta.
    destruct (select_arch sel) as [a|e]; [|reflexivity].
    destruct (tv_pretrained a) as [m|e]; [|reflexivity].
    destruct (nn_classifier n) as [c|e]; [|reflexivity].
    destruct checkpoint as [path|]; [|reflexivity].
    destruct (torch_load path) as [state|e]; reflexivity.
  - unfold init_optim, bind, lift, modify, raise, get.
    destruct (String.eqb sel "Adam"), (String.eqb sel "SGD");
      try destruct (torch_optim _ _ _ _); reflexivity.
  - unfold init_optim, bind, lift, modify, raise, get.
    destruct (String.eqb sel "Adam"), (String.eqb sel "SGD");
      try destruct (torch_optim _ _ _ _); reflexivity.
Qed.

End SetupClaims.

(** * Concrete runs on the stub *)

(** A run is the pair of what it returns and the object it leaves. *)
Lemma run_is `{Torch} {A} (p : result A * Self) (r : result A) :
  fst p = r -> p = (r, snd p).
Proof. destruct p; cbn; intros ->; reflexivity. Defined.

(** Closes [c s = (r, snd (c s))] by running [c] on [s]. *)
Ltac by_running := apply run_is; vm_compute; reflexivity.

(** Counterexample to C1 as the specification words it: with early stopping
    configured and a test loss of -1 at epoch 0, the comparison with the
    sentinel 0 is made and a checkpoint is written, in [_test_step] and in a
    whole run of [train]. *)
Lemma C1_counterexample :
  epoch (stub_self (-1) (-1) 0 (Some 2)) = 0 /\
  fst (_test_step 0%float (stub_self (-1) (-1) 0 (Some 2)))
    = Ok ((-1)%float, 0%float) /\
  map f_name (disk (stub_self (-1) (-1) 0 (Some 2))) = [] /\
  map f_name (disk (snd (_test_step 0%float (stub_self (-1) (-1) 0 (Some 2)))))
    = ["0_-1.0_0.0.pth"] /\
  map f_name (disk (snd (train 1 1 (Some 2) (stub_self 0 (-1) 0 None))))
    = ["0_-1.0_0.0.pth"].
Proof. repeat split; vm_compute; reflexivity. Qed.

Lemma C1_witness :
  patience_ended (snd (_test_step 0%float (stub_self 1 0 0 (Some 2)))) = false /\
  patience_curr (snd (_test_step 0%float (stub_self 1 0 0 (Some 2)))) = 0 /\
  map f_name (disk (snd (_test_step 0%float (stub_self 1 0 0 (Some 2))))) = [].
Proof.
  pose proof (C1_epoch0_no_increment (stub_self 1 0 0 (Some 2))
                (snd (_test_step 0%float (stub_self 1 0 0 (Some 2))))
                (Ok (1%float, 0%float))
                ltac:(vm_compute; reflexivity)
                ltac:(by_running))
    as (E & _ & K).
  pose proof (K 1%float 0%float eq_refl ltac:(vm_compute; reflexivity))
    as (C & D).
  apply (f_equal (map f_name)) in D.
  vm_compute in E, C, D |- *. auto.
Defined.

(** Counterexample to C2 as the specification words it: at epoch 1 a test
    loss equal to the previous one (0.5, so greater than or equal to it)
    leaves the counter as it was. *)
Lemma C2_counterexample :
  epoch (stub_self 0.5 0 1 (Some 2)) <> 0 /\
  PATIENCE (stub_self 0.5 0 1 (Some 2)) = Some 2 /\
  fst (_test_step 0.5 (stub_self 0.5 0 1 (Some 2))) = Ok (0.5%float, 0%float) /\
  py_ge 0.5 0.5 = true /\
  patience_curr (snd (_test_step 0.5 (stub_self 0.5 0 1 (Some 2))))
    <> patience_curr (stub_self 0.5 0 1 (Some 2)) + 1.
Proof.
  repeat split; try (vm_compute; reflexivity); vm_compute; discriminate.
Qed.

Lemma C2_witness :
  patience_curr (snd (_test_step 1 (stub_self 2 1 1 (Some 3)))) = 1.
Proof.
  pose proof (C2_increment_on_strict_increase (stub_self 2 1 1 (Some 3))
                (snd (_test_step 1 (stub_self 2 1 1 (Some 3))))
                1%float 2%float 0%float 3
                ltac:(vm_compute; reflexivity) ltac:(vm_compute; discriminate)
                ltac:(by_running)
                ltac:(vm_compute; reflexivity))
    as K.
  vm_compute in K |- *. exact K.
Defined.

Lemma C3_witness :
  patience_curr (snd (_test_step 0.5 (stub_self 0.5 0 1 (Some 2)))) = 0 /\
  patience_ended (snd (_test_step 0.5 (stub_self 0.5 0 1 (Some 2)))) = false /\
  map f_name (disk (snd (_test_step 0.5 (stub_self 0.5 0 1 (Some 2))))) = [].
Proof.
  pose proof (C3_tie_is_noop (stub_self 0.5 0 1 (Some 2))
                (snd (_test_step 0.5 (stub_self 0.5 0 1 (Some 2))))
                0.5%float 0.5%float 0%float
                ltac:(vm_compute; discriminate)
                ltac:(by_running)
                ltac:(vm_compute; reflexivity)) as (C & E & D).
  apply (f_equal (map f_name)) in D.
  vm_compute in C, E, D |- *. auto.
Defined.

Lemma C4_witness :
  patience_curr (snd (_test_step (-1) (stub_self (-2) (-1) 1 (Some 2)))) = 0 /\
  map f_name (disk (snd (_test_step (-1) (stub_self (-2) (-1) 1 (Some 2)))))
    = ["1_-2.0_0.0.pth"].
Proof.
  pose proof (C4_improvement_checkpoints (stub_self (-2) (-1) 1 (Some 2))
                (snd (_test_step (-1) (stub_self (-2) (-1) 1 (Some 2))))
                (-1)%float (-2)%float 0%float 2
                ltac:(vm_compute; reflexivity)
                ltac:(by_running)
                ltac:(vm_compute; reflexivity)) as (C & D & _).
  apply (f_equal (map f_name)) in D.
  vm_compute in C, D |- *. auto.
Defined.

Lemma C5_witness :
  patience_ended (snd (train 3 1 (Some 2) (stub_self 0 1 0 None))) = true /\
  fst (train 5 1 (Some 2) (stub_self 0 1 0 None))
    = fst (train 3 1 (Some 2) (stub_self 0 1 0 None)) /\
  calls (snd (train 5 1 (Some 2) (stub_self 0 1 0 None)))
    = calls (snd (train 3 1 (Some 2) (stub_self 0 1 0 None))) /\
  map f_name (disk (snd (train 5 1 (Some 2) (stub_self 0 1 0 None))))
    = map f_name (disk (snd (train 3 1 (Some 2) (stub_self 0 1 0 None)))).
Proof.
  pose proof (C5_stop_takes_effect_next_epoch (stub_self 0 1 0 None)
                (snd (train 2 1 (Some 2) (stub_self 0 1 0 None)))
                (snd (train 3 1 (Some 2) (stub_self 0 1 0 None)))
                2 1 2
                (the_history (train 2 1 (Some 2) (stub_self 0 1 0 None)))
                (the_history (train 3 1 (Some 2) (stub_self 0 1 0 None)))
                ltac:(vm_compute; discriminate)
                ltac:(by_running)
                ltac:(vm_compute; reflexivity)
                ltac:(by_running)
                ltac:(vm_compute; reflexivity) ltac:(vm_compute; reflexivity))
    as (E & _ & K).
  pose proof (K 5 ltac:(vm_compute; discriminate)) as (s2 & R & C & D & _).
  pose proof (f_equal fst R) as R1. pose proof (f_equal snd R) as R2.
  cbn [fst snd] in R1, R2. rewrite R2, R1, C, D.
  split; [exact E|]. split; [vm_compute; reflexivity|]. split; reflexivity.
Defined.

Lemma C6_witness :
  map row_epoch (rows (the_history (train 6 2 None (stub_self 0 1 0 None))))
    = [Some 0; Some 2; Some 4] /\
  List.length (rows (the_history (train 6 2 None (stub_self 0 1 0 None)))) = 3%nat.
Proof.
  pose proof (C6_history_rows (stub_self 0 1 0 None)
                (snd (train 6 2 None (stub_self 0 1 0 None))) 6 2 None
                (the_history (train 6 2 None (stub_self 0 1 0 None)))
                ltac:(by_running)) as (_ & _ & _ & K).
  exact (K eq_refl eq_refl ltac:(vm_compute; reflexivity)).
Defined.

(** Two test batches with losses 1 and 2: the mean is 1.5, whatever the
    number of examples in each. *)
Lemma C7_witness :
  fst (_test_step 0
         (stub_with_test_loader [(1%float, 0%float); (1%float, (-1)%float)]))
    = Ok (1.5%float, 0%float).
Proof.
  pose proof (C7_means_over_batches
                (stub_with_test_loader [(1%float, 0%float); (1%float, (-1)%float)])
                0%float) as (_ & K).
  pose proof (K ltac:(discriminate)) as (_ & E).
  vm_compute in E |- *. exact E.
Defined.

(** Counterexample to C9 as the specification words it: the message of the
    error does not name the invalid value. *)
Lemma C9_counterexample :
  is_in "resnet18" supported_models = false /\
  fst (load_model 10 "resnet18" None (stub_self 0 0 0 None))
    = Raise (RuntimeError "Incorrect `model` parameter. Check type hint.") /\
  contains "resnet18" "Incorrect `model` parameter. Check type hint." = false /\
  is_in "RMSprop" supported_optimizers = false /\
  fst (init_optim "RMSprop" (stub_self 0 0 0 None))
    = Raise (RuntimeError "Incorrect `optimizer` parameter. Check type hint.") /\
  contains "RMSprop" "Incorrect `optimizer` parameter. Check type hint." = false.
Proof. repeat split; vm_compute; reflexivity. Qed.

Lemma C10_witness :
  fst (_train_step (stub_with_train_loader [])) = Raise ZeroDivisionError /\
  fst (_test_step 0 (stub_with_test_loader [])) = Raise ZeroDivisionError.
Proof.
  pose proof (C10_empty_loader_raises (stub_with_train_loader []) 0%float)
    as (A & _).
  pose proof (C10_empty_loader_raises (stub_with_test_loader []) 0%float)
    as (_ & B & _).
  split; [exact (A eq_refl)|exact (B eq_refl)].
Defined.

(** * Whole runs: what the steps do to [self] *)

Lemma SFcompare_refl (x : spec_float) :
  x <> S754_nan -> SFcompare x x = Some Eq.
Proof.
  destruct x as [s|s| |s m e]; intros N; cbn.
  - reflexivity.
  - destruct s; reflexivity.
  - now elim N.
  - rewrite Z.compare_refl.
    change (Pos.compare_cont Eq m m) with (Pos.compare m m).
    rewrite Pos.compare_refl. destruct s; reflexivity.
Qed.

(** No comparison with a NaN holds. *)
Lemma is_nan_not_lt (x y : float) :
  PrimFloat.is_nan x = true -> py_lt x y = false /\ py_lt y x = false.
Proof.
  unfold PrimFloat.is_nan, py_lt. intros N. apply negb_true_iff in N.
  rewrite FloatAxioms.eqb_spec in N. rewrite !ltb_spec. unfold SFeqb, SFltb in *.
  destruct (Prim2SF x) as [s|s| |s m e] eqn:E.
  - rewrite SFcompare_refl in N by discriminate. discriminate.
  - rewrite SFcompare_refl in N by discriminate. discriminate.
  - split; [reflexivity|]. destruct (Prim2SF y); reflexivity.
  - rewrite SFcompare_refl in N by discriminate. discriminate.
Qed.


Section StepEffects.

Context `{Torch}.

Lemma after_batches_params loader : forall s : Self,
  training s = true ->
  let s' := after_batches s loader in
  (model s', optimizer s') =
    pass_params (criterion s) loader (model s, optimizer s) /\
  training s' = true /\ same_config s s'.
Proof.
  unfold same_config, after_batches, pass_params.
  induction loader as [|b rest IH]; intros s Tr; cbn [fold_left].
  - cbv zeta. tauto.
  - specialize (IH (after_batch s b) Tr). cbv zeta in IH.
    destruct IH as (IHp & IHt & IHc). cbv zeta.
    rewrite IHp. cbn [model optimizer criterion after_batch set_optimizer set_model
                      fst snd] in *.
    rewrite Tr.
    destruct (optim_step (optimizer s) (criterion s) true (model s) (fst b) (snd b))
      as [m o]. cbn [fst snd]. repeat split; tauto.
Qed.

(** All that [_train_step] does to [self], whether it returns or raises. *)
Lemma _train_step_effect (s : Self) :
  let s' := snd (_train_step s) in
  same_setup s s' /\ same_config s s' /\
  calls s' = calls s ++ [Call_train_step (epoch s)] /\
  disk s' = disk s /\ patience_curr s' = patience_curr s /\
  patience_ended s' = patience_ended s /\ training s' = true /\
  (model s', optimizer s') =
    pass_params (criterion s) (train_loader s) (model s, optimizer s).
Proof.
  pose proof (_train_step_frame s) as F. cbv zeta in F.
  destruct F as (F1 & F2 & F3 & F4 & F5).
  assert (E : snd (_train_step s) = after_batches (train_entry s) (train_loader s)).
  { rewrite _train_step_run. cbv zeta. destruct (train_loader s); reflexivity. }
  pose proof (after_batches_params (train_loader s) (train_entry s) eq_refl) as P.
  cbv zeta in P. rewrite <- E in P. destruct P as (Pp & Pt & Pc).
  cbv zeta. split; [exact F1|]. split; [exact Pc|].
  split; [exact F2|]. split; [exact F3|]. split; [exact F4|].
  split; [exact F5|]. split; [exact Pt|exact Pp].
Qed.

(** All that [_test_step] does to [self], whether it returns or raises: beside
    the call and the mode, one of the three outcomes of the policy. *)
Lemma _test_step_effect prev (s : Self) :
  let s' := snd (_test_step prev s) in
  same_setup s s' /\ same_config s s' /\
  model s' = model s /\ optimizer s' = optimizer s /\
  calls s' = calls s ++ [Call_test_step (epoch s)] /\ training s' = false /\
  ((patience_curr s' = patience_curr s /\ patience_ended s' = patience_ended s /\
    disk s' = disk s)
   \/ (exists limit, PATIENCE s = Some limit /\ epoch s <> 0 /\
         patience_curr s' = patience_curr s + 1 /\ disk s' = disk s /\
         patience_ended s' =
           if patience_curr s + 1 =? limit then true else patience_ended s)
   \/ (exists limit loss acc, PATIENCE s = Some limit /\
         patience_curr s' = 0 /\ patience_ended s' = patience_ended s /\
         disk s' = disk s ++ [ {| f_dir := PATH s;
                                  f_name := checkpoint_name (epoch s) loss acc;
                                  f_state := model s |} ])).
Proof.
  pose proof (_test_step_frame prev s) as F. cbv zeta in F.
  destruct F as (F1 & F2 & _).
  rewrite _test_step_run in *. cbv zeta in *. unfold same_config.
  destruct (test_loader s) as [|b rest] eqn:E; cbn [snd] in *.
  { cbn. repeat split; auto. }
  set (loss := spec_mean (map fst _)) in *.
  set (acc := spec_mean (map snd _)) in *.
  destruct (PATIENCE (test_entry s)) as [limit|] eqn:P.
  2:{ rewrite (policy_disabled _ _ _ _ P) in *. cbn. repeat split; auto. }
  destruct (py_lt prev loss && negb (epoch (test_entry s) =? 0)) eqn:L.
  - apply andb_prop in L. destruct L as [L N].
    apply negb_true_iff, Z.eqb_neq in N.
    rewrite (policy_increase _ _ _ _ limit P L N) in *. cbv zeta in *.
    split; [exact F1|]. cbn in P, N.
    destruct (patience_curr (test_entry s) + 1 =? limit) eqn:Q; cbn in Q |- *;
      (repeat split; auto; right; left; exists limit; rewrite Q; auto).
  - destruct (py_gt prev loss) eqn:G.
    + rewrite (policy_improve _ _ _ _ limit P L G) in *.
      split; [exact F1|].
      repeat split; try reflexivity.
      right; right. exists limit, loss, acc.
      repeat split; try reflexivity. exact P.
    + rewrite (policy_unchanged _ _ _ _ limit P L G) in *. cbn.
      repeat split; auto.
Qed.

(** The state a loop iteration leaves is the one its train step or its eval
    step left. *)
Lemma epoch_body_leaves TE results tl (s : Self) :
  snd (epoch_body TE results tl s) = snd (_train_step s) \/
  snd (epoch_body TE results tl s) = snd (_test_step tl (snd (_train_step s))).
Proof.
  rewrite epoch_body_run.
  destruct (_train_step s) as [[[trl tra]|e] s1]; cbn [snd]; [|auto].
  destruct (py_mod_is_zero (epoch s1) TE) as [[|]|e]; cbn [snd]; auto.
  destruct (_test_step tl s1) as [[[l a]|e] s2]; cbn [snd]; auto.
Qed.

(** A property that every step keeps is kept by the loop and by [train],
    whether they return or raise. *)
Lemma train_loop_keeps (I : Self -> Prop) TE :
  (forall e s, I s -> I (set_epoch e s)) ->
  (forall s, I s -> patience_ended s = false -> I (snd (_train_step s))) ->
  (forall prev s, I s -> patience_ended s = false -> I (snd (_test_step prev s))) ->
  forall epochs results tl s, I s -> I (snd (train_loop epochs TE results tl s)).
Proof.
  intros He Htr Hte.
  induction epochs as [|e rest IH]; intros results tl s Is; [exact Is|].
  rewrite train_loop_cons. destruct (patience_ended s) eqn:P; [now apply He|].
  pose proof (_train_step_effect (set_epoch e s)) as F. cbv zeta in F.
  destruct F as (_ & _ & _ & _ & _ & Fpe & _).
  change (patience_ended (set_epoch e s)) with (patience_ended s) in Fpe.
  rewrite P in Fpe.
  pose proof (Htr _ (He e _ Is) P) as I1.
  rewrite epoch_body_run.
  destruct (_train_step (set_epoch e s)) as [[[trl tra]|x] s1]; cbn [snd] in *;
    [|exact I1].
  destruct (py_mod_is_zero (epoch s1) TE) as [[|]|x]; cbn [snd]; auto.
  pose proof (Hte tl _ I1 Fpe) as I2.
  destruct (_test_step tl s1) as [[[l a]|x] s2]; cbn [snd] in *; auto.
Qed.

Lemma train_keeps (I : Self -> Prop) EPOCHS TE P (s : Self) :
  (forall e s, I s -> I (set_epoch e s)) ->
  (forall h s, I s -> I (set_history h s)) ->
  (forall s, I s -> patience_ended s = false -> I (snd (_train_step s))) ->
  (forall prev s, I s -> patience_ended s = false -> I (snd (_test_step prev s))) ->
  I (train_entry_state P s) -> I (snd (train EPOCHS TE P s)).
Proof.
  intros He Hh Htr Hte I0. rewrite train_run.
  pose proof (train_loop_keeps I TE He Htr Hte (range EPOCHS) [] 0%float _ I0) as K.
  destruct (train_loop (range EPOCHS) TE [] 0%float (train_entry_state P s))
    as [[[results tl]|x] s1]; cbn [snd] in *; auto.
Qed.

End StepEffects.

(** * Whole runs: properties *)

Section RunProperties.

Context `{Torch}.

Lemma range_pos n : 1 <= n -> exists rest, range n = 0 :: rest.
Proof.
  intros G. unfold range. destruct (Z.to_nat n) as [|k] eqn:E; [lia|].
  cbn. eauto.
Qed.

Lemma range_nonpos n : n <= 0 -> range n = [].
Proof.
  intros G. unfold range. replace (Z.to_nat n) with 0%nat by lia. reflexivity.
Qed.

(** A run that returned with the flag down executed every epoch. *)
Lemma train_ok_full EPOCHS TE P (s s' : Self) h :
  train EPOCHS TE P s = (Ok h, s') -> patience_ended s' = false ->
  trained_epochs (calls s') = trained_epochs (calls s) ++ range EPOCHS /\
  tested_epochs (calls s') =
    tested_epochs (calls s) ++ filter (due TE) (range EPOCHS) /\
  map row_epoch (rows h) = map Some (filter (due TE) (range EPOCHS)).
Proof.
  intros R E. rewrite train_run in R.
  destruct (train_loop (range EPOCHS) TE [] 0%float (train_entry_state P s))
    as [[[results tl]|x] s1] eqn:L; [|discriminate].
  cbv zeta in R. inversion R; subst h s'. clear R.
  destruct (train_loop_rows _ _ _ _ _ _ _ _ L)
    as (_ & _ & k & new_rows & _ & Htr & Hte & Hres & Hmap & _ & Hfull).
  rewrite (Hfull E), firstn_all in *. cbn [app] in Hres. subst results.
  repeat split; assumption.
Qed.

(** The patience state of a run, whether it returns or raises: the limit is
    the one given, the counter is never negative, a set flag means the
    counter sits on the limit, and under a limit of at least 1 the counter
    never passes the limit and sits on it only with the flag set. *)
Theorem train_patience_bounds EPOCHS TE P (s : Self) :
  let s' := snd (train EPOCHS TE P s) in
  PATIENCE s' = P /\ 0 <= patience_curr s' /\
  (patience_ended s' = true -> P = Some (patience_curr s')) /\
  (forall limit, P = Some limit -> 1 <= limit ->
     patience_curr s' <= limit /\
     (patience_curr s' = limit -> patience_ended s' = true)).
Proof.
  change (patience_invariant P (snd (train EPOCHS TE P s))).
  apply train_keeps; unfold patience_invariant.
  - intros e s0 I. exact I.
  - intros h s0 I. exact I.
  - intros s0 (Ip & I0 & Ie & Il) _.
    destruct (_train_step_effect s0)
      as ((_ & Fp & _) & _ & _ & _ & Fc & Fe & _).
    rewrite Fp, Fc, Fe. auto.
  - intros prev s0 (Ip & I0 & Ie & Il) E.
    destruct (_test_step_effect prev s0)
      as ((_ & Fp & _) & _ & _ & _ & _ & _ & C).
    rewrite Fp. split; [exact Ip|].
    destruct C as [(Cc & Ce & _)|[(limit & Cp & _ & Cc & _ & Ce)
                                 |(limit & l & a & Cp & Cc & Ce & _)]].
    + rewrite Cc, Ce. auto.
    + rewrite Cc, Ce, E. rewrite Cp in Ip. subst P.
      destruct (patience_curr s0 + 1 =? limit) eqn:Q.
      * apply Z.eqb_eq in Q. split; [lia|]. split; [intros _; f_equal; lia|].
        intros limit' [= <-] G. split; [lia|auto].
      * apply Z.eqb_neq in Q. split; [lia|]. split; [discriminate|].
        intros limit' [= <-] G. destruct (Il limit eq_refl G) as (Le & Eq).
        assert (patience_curr s0 <> limit) by (intros K; apply Eq in K; congruence).
        split; [lia|]. intros K. lia.
    + rewrite Cc, Ce, E. split; [lia|]. split; [discriminate|].
      intros limit' _ G. split; [lia|]. intros K. lia.
  - cbn. split; [reflexivity|]. split; [lia|]. split; [discriminate|].
    intros limit _ G. split; [lia|]. intros K. lia.
Qed.

(** With no patience limit a run never writes a file, never sets the flag and
    keeps the counter at 0, whether it returns or raises; when it returns, the
    train step ran on every epoch and the eval step on every epoch with
    [epoch mod TEST_EVERY = 0], one row each. *)
Theorem train_without_patience EPOCHS TE (s : Self) :
  let s' := snd (train EPOCHS TE None s) in
  disk s' = disk s /\ patience_ended s' = false /\ patience_curr s' = 0 /\
  forall h, fst (train EPOCHS TE None s) = Ok h ->
    trained_epochs (calls s') = trained_epochs (calls s) ++ range EPOCHS /\
    tested_epochs (calls s') =
      tested_epochs (calls s) ++ filter (fun e => e mod TE =? 0) (range EPOCHS) /\
    map row_epoch (rows h) =
      map Some (filter (fun e => e mod TE =? 0) (range EPOCHS)).
Proof.
  cbv zeta.
  assert (I : PATIENCE (snd (train EPOCHS TE None s)) = None /\
              disk (snd (train EPOCHS TE None s)) = disk s /\
              patience_ended (snd (train EPOCHS TE None s)) = false /\
              patience_curr (snd (train EPOCHS TE None s)) = 0).
  { apply (train_keeps (fun s' => PATIENCE s' = None /\ disk s' = disk s /\
                                  patience_ended s' = false /\
                                  patience_curr s' = 0)).
    - intros e s0 I. exact I.
    - intros h s0 I. exact I.
    - intros s0 (Ip & Id & Ie & Ic) _.
      destruct (_train_step_effect s0)
        as ((_ & Fp & _) & _ & _ & Fd & Fc & Fe & _).
      rewrite Fp, Fd, Fc, Fe. auto.
    - intros prev s0 (Ip & Id & Ie & Ic) _.
      destruct (_test_step_effect prev s0)
        as ((_ & Fp & _) & _ & _ & _ & _ & _ & C).
      rewrite Fp. split; [exact Ip|].
      destruct C as [(Cc & Ce & Cd)|[(limit & Cp & _)|(limit & l & a & Cp & _)]];
        [|congruence|congruence].
      rewrite Cc, Ce, Cd. auto.
    - cbn. auto. }
  destruct I as (_ & Id & Ie & Ic). repeat split; try assumption;
    destruct (train EPOCHS TE None s) as [r s'] eqn:R; cbn [fst snd] in *;
    subst r; destruct (train_ok_full _ _ _ _ _ _ R Ie) as (A & B & C); assumption.
Qed.

(** A patience limit of 0 or less never stops a run: the flag stays down,
    whether the run returns or raises, and a run that returns executed every
    epoch. *)
Theorem train_nonpositive_patience EPOCHS TE limit (s : Self) :
  limit <= 0 ->
  let s' := snd (train EPOCHS TE (Some limit) s) in
  patience_ended s' = false /\
  forall h, fst (train EPOCHS TE (Some limit) s) = Ok h ->
    trained_epochs (calls s') = trained_epochs (calls s) ++ range EPOCHS.
Proof.
  intros G. cbv zeta.
  assert (I : PATIENCE (snd (train EPOCHS TE (Some limit) s)) = Some limit /\
              0 <= patience_curr (snd (train EPOCHS TE (Some limit) s)) /\
              patience_ended (snd (train EPOCHS TE (Some limit) s)) = false).
  { apply (train_keeps (fun s' => PATIENCE s' = Some limit /\
                                  0 <= patience_curr s' /\
                                  patience_ended s' = false)).
    - intros e s0 I. exact I.
    - intros h s0 I. exact I.
    - intros s0 (Ip & Ic & Ie) _.
      destruct (_train_step_effect s0)
        as ((_ & Fp & _) & _ & _ & _ & Fc & Fe & _).
      rewrite Fp, Fc, Fe. auto.
    - intros prev s0 (Ip & Ic & Ie) _.
      destruct (_test_step_effect prev s0)
        as ((_ & Fp & _) & _ & _ & _ & _ & _ & C).
      rewrite Fp. split; [exact Ip|].
      destruct C as [(Cc & Ce & _)|[(limit' & Cp & _ & Cc & _ & Ce)
                                   |(limit' & l & a & Cp & Cc & Ce & _)]].
      + rewrite Cc, Ce. auto.
      + rewrite Cc, Ce, Ie. rewrite Ip in Cp. injection Cp as <-.
        destruct (patience_curr s0 + 1 =? limit) eqn:Q;
          [apply Z.eqb_eq in Q; lia|]. split; [lia|reflexivity].
      + rewrite Cc, Ce. split; [lia|exact Ie].
    - cbn. split; [reflexivity|]. split; [lia|reflexivity]. }
  destruct I as (_ & _ & Ie). split; [exact Ie|].
  intros h R. destruct (train EPOCHS TE (Some limit) s) as [r s'] eqn:E.
  cbn [fst snd] in *. subst r.
  exact (proj1 (train_ok_full _ _ _ _ _ _ E Ie)).
Qed.

Lemma train_loop_running e rest TE results tl (s : Self) :
  patience_ended s = false ->
  train_loop (e :: rest) TE results tl s =
  match epoch_body TE results tl (set_epoch e s) with
  | (Ok (results', tl'), s') => train_loop rest TE results' tl' s'
  | (Raise x, s') => (Raise x, s')
  end.
Proof. intros E. rewrite train_loop_cons, E. reflexivity. Qed.

(** With [TEST_EVERY = 0] and at least one epoch, [train] raises
    ZeroDivisionError in epoch 0, after the train step of that epoch: one call
    of the train step and none of the eval step, the parameters are those
    after one pass, no file is written and [self.history] is left as it was. *)
Theorem train_test_every_zero EPOCHS P (s : Self) :
  1 <= EPOCHS ->
  let s' := snd (train EPOCHS 0 P s) in
  fst (train EPOCHS 0 P s) = Raise ZeroDivisionError /\
  calls s' = calls s ++ [Call_train_step 0] /\
  (model s', optimizer s') =
    pass_params (criterion s) (train_loader s) (model s, optimizer s) /\
  disk s' = disk s /\ history s' = history s.
Proof.
  intros G. cbv zeta. rewrite train_run.
  destruct (range_pos EPOCHS G) as [rest ->].
  rewrite train_loop_running by reflexivity.
  rewrite epoch_body_run.
  pose proof (_train_step_effect (set_epoch 0 (train_entry_state P s))) as F.
  cbv zeta in F. destruct F as ((_ & _ & _ & _ & Fh) & _ & Fc & Fd & _ & _ & _ & Fp).
  pose proof (_train_step_run (set_epoch 0 (train_entry_state P s))) as R.
  cbv zeta in R.
  change (train_loader (set_epoch 0 (train_entry_state P s)))
    with (train_loader s) in R, Fp.
  change (criterion (set_epoch 0 (train_entry_state P s)))
    with (criterion s) in Fp.
  change (model (set_epoch 0 (train_entry_state P s))) with (model s) in Fp.
  change (optimizer (set_epoch 0 (train_entry_state P s)))
    with (optimizer s) in Fp.
  destruct (train_loader s) as [|b bs] eqn:Etr; rewrite R in *; cbn [fst snd] in *;
    unfold py_mod_is_zero; cbn [Z.eqb fst snd];
    (split; [reflexivity|]); (split; [exact Fc|]); (split; [exact Fp|]);
    (split; [exact Fd|exact Fh]).
Qed.

Lemma train_no_epochs_run EPOCHS TE P (s : Self) :
  EPOCHS <= 0 ->
  train EPOCHS TE P s =
  (Ok empty_history, set_history (Some empty_history) (train_entry_state P s)).
Proof.
  intros G. rewrite train_run, (range_nonpos EPOCHS G). reflexivity.
Qed.

(** With [EPOCHS <= 0] the loop body never runs: [train] returns the empty
    table with the five columns, whatever TEST_EVERY and the loaders are; it
    calls no step and writes no file, but it resets the patience state and
    overwrites [self.history]. *)
Theorem train_no_epochs EPOCHS TE P (s : Self) :
  EPOCHS <= 0 ->
  let s' := snd (train EPOCHS TE P s) in
  fst (train EPOCHS TE P s) = Ok empty_history /\
  history s' = Some empty_history /\
  calls s' = calls s /\ disk s' = disk s /\ model s' = model s /\
  optimizer s' = optimizer s /\ epoch s' = epoch s /\
  PATIENCE s' = P /\ patience_curr s' = 0 /\ patience_ended s' = false.
Proof.
  intros G. cbv zeta. rewrite (train_no_epochs_run EPOCHS TE P s G).
  cbn. repeat split; reflexivity.
Qed.

(** Epoch 0 is evaluated under every cadence: when [train] returns from at
    least one epoch, the first row of the history is the row of epoch 0, and
    the first train step and the first eval step of the run are those of
    epoch 0. *)
Theorem train_evaluates_epoch_0 EPOCHS TE P (s s' : Self) h :
  1 <= EPOCHS ->
  train EPOCHS TE P s = (Ok h, s') ->
  (exists a b c d more, rows h = [CInt 0; a; b; c; d] :: more) /\
  (exists more, trained_epochs (calls s') = trained_epochs (calls s) ++ 0 :: more) /\
  (exists more, tested_epochs (calls s') = tested_epochs (calls s) ++ 0 :: more).
Proof.
  intros G R. rewrite train_run in R.
  destruct (range_pos EPOCHS G) as [rest Er]. rewrite Er in R.
  rewrite train_loop_running in R by reflexivity.
  destruct (epoch_body TE [] 0%float (set_epoch 0 (train_entry_state P s)))
    as [[[r1 t1]|x] s1] eqn:B; [|discriminate].
  destruct (train_loop rest TE r1 t1 s1) as [[[r2 t2]|x] s2] eqn:L; [|discriminate].
  cbv zeta in R. inversion R; subst h s'. clear R.
  apply epoch_body_ok in B. destruct B as (NZ & _ & _ & B).
  change (epoch (set_epoch 0 (train_entry_state P s))) with 0 in B.
  change (calls (set_epoch 0 (train_entry_state P s))) with (calls s) in B.
  replace (due TE 0) with true in B by (unfold due; now rewrite Z.mod_0_l).
  destruct B as (Bc & a & b & c & d & Br). cbn [app] in Br. subst r1.
  destruct (train_loop_rows _ _ _ _ _ _ _ _ L)
    as (_ & _ & k & new_rows & _ & Htr & Hte & Hres & _).
  cbn [rows calls set_history]. rewrite Htr, Hte, Hres, Bc.
  unfold trained_epochs, tested_epochs. rewrite !flat_map_app. cbn.
  rewrite <- !app_assoc. cbn. repeat split; eauto 10.
Qed.

(** With at least one epoch, [train] raises ZeroDivisionError in epoch 0 when
    the train loader is empty, when TEST_EVERY is 0 and when the test loader
    is empty (the batches a loader yields before the division being handled
    by collaborators that return).  Whenever [train] raises, [self.history] is
    left as it was, the rows collected so far being lost; when it returns,
    [self.history] is the table returned. *)
Theorem train_raises_on_empty_input EPOCHS TE P (s : Self) :
  (1 <= EPOCHS -> train_loader s = [] \/ TE = 0 \/ test_loader s = [] ->
   fst (train EPOCHS TE P s) = Raise ZeroDivisionError) /\
  (forall e, fst (train EPOCHS TE P s) = Raise e ->
     history (snd (train EPOCHS TE P s)) = history s) /\
  (forall h, fst (train EPOCHS TE P s) = Ok h ->
     history (snd (train EPOCHS TE P s)) = Some h).
Proof.
  split; [|split].
  - intros G C. rewrite train_run.
    destruct (range_pos EPOCHS G) as [rest ->].
    rewrite train_loop_running by reflexivity.
    set (s0 := set_epoch 0 (train_entry_state P s)).
    assert (B : exists s1, epoch_body TE [] 0%float s0 = (Raise ZeroDivisionError, s1)).
    { rewrite epoch_body_run, _train_step_run. cbv zeta.
      change (train_loader s0) with (train_loader s).
      destruct (train_loader s) as [|b bs] eqn:Etr; [eauto|].
      unfold py_mod_is_zero. destruct (TE =? 0) eqn:Z0; [eauto|].
      apply Z.eqb_neq in Z0.
      pose proof (after_batches_frame (b :: bs) (train_entry s0)) as F.
      cbv zeta in F. destruct F as ((Fe & _ & _ & Fte & _) & _).
      rewrite Fe. change (epoch (train_entry s0)) with 0.
      rewrite Z.mod_0_l by exact Z0. cbn [Z.eqb].
      destruct C as [C|[C|C]]; [discriminate|contradiction|].
      rewrite _test_step_run. cbv zeta. rewrite Fte.
      change (test_loader (train_entry s0)) with (test_loader s).
      rewrite C. eauto. }
    destruct B as (s1 & ->). reflexivity.
  - intros e R. rewrite train_run in *.
    pose proof (train_loop_keeps (fun s' => history s' = history s) TE
                  ltac:(intros; assumption)
                  ltac:(intros s0 I _;
                        destruct (_train_step_effect s0) as ((_ & _ & _ & _ & Fh) & _);
                        congruence)
                  ltac:(intros prev s0 I _;
                        destruct (_test_step_effect prev s0) as ((_ & _ & _ & _ & Fh) & _);
                        congruence)
                  (range EPOCHS) [] 0%float (train_entry_state P s) eq_refl) as K.
    destruct (train_loop (range EPOCHS) TE [] 0%float (train_entry_state P s))
      as [[[results tl]|x] s1] eqn:L; cbn [fst snd] in *; [discriminate|].
    exact K.
  - intros h R. rewrite train_run in *.
    destruct (train_loop (range EPOCHS) TE [] 0%float (train_entry_state P s))
      as [[[results tl]|x] s1]; cbn [fst snd] in *; [|discriminate].
    inversion R; subst h. reflexivity.
Qed.

(** The files of a run, whether it returns or raises: the files that were
    there are kept, in order; every file added lies in the output directory
    and is named after an epoch on which the eval step ran; and there is at
    most one file per call of the eval step. *)
Theorem train_checkpoints EPOCHS TE P (s : Self) :
  let s' := snd (train EPOCHS TE P s) in
  exists cs new,
    calls s' = calls s ++ cs /\ disk s' = disk s ++ new /\
    (List.length new <= List.length (tested_epochs cs))%nat /\
    Forall (fun f => f_dir f = PATH s /\
                     exists e loss acc, In e (tested_epochs cs) /\
                       f_name f = checkpoint_name e loss acc) new.
Proof.
  cbv zeta.
  apply (proj2 (A := PATH (snd (train EPOCHS TE P s)) = PATH s)).
  change (checkpoints_invariant s (snd (train EPOCHS TE P s))).
  apply train_keeps.
  - intros e s0 I. exact I.
  - intros h s0 I. exact I.
  - intros s0 (Ip & cs & new & Ic & Id & Il & If) _.
    destruct (_train_step_effect s0)
      as (_ & (Fp & _) & Fc & Fd & _).
    split; [congruence|].
    exists (cs ++ [Call_train_step (epoch s0)]), new.
    unfold tested_epochs in *. rewrite flat_map_app. cbn [flat_map].
    rewrite app_nil_r, Fc, Fd, Ic, Id, <- app_assoc. repeat split; auto.
  - intros prev s0 (Ip & cs & new & Ic & Id & Il & If) _.
    destruct (_test_step_effect prev s0)
      as (_ & (Fp & _) & _ & _ & Fc & _ & C).
    split; [congruence|].
    assert (Mono : Forall (fun f => f_dir f = PATH s /\
                     exists e loss acc,
                       In e (tested_epochs (cs ++ [Call_test_step (epoch s0)])) /\
                       f_name f = checkpoint_name e loss acc) new).
    { eapply Forall_impl; [|exact If]. cbv beta.
      intros f (Hd & e & l & a & Hin & Hn). split; [exact Hd|].
      exists e, l, a. split; [|exact Hn].
      unfold tested_epochs. rewrite flat_map_app. apply in_or_app. auto. }
    assert (Len : List.length (tested_epochs (cs ++ [Call_test_step (epoch s0)]))
                  = S (List.length (tested_epochs cs))).
    { unfold tested_epochs. rewrite flat_map_app, length_app. cbn. lia. }
    destruct C as [(_ & _ & Cd)|[(limit & _ & _ & _ & Cd & _)
                                |(limit & l & a & _ & _ & _ & Cd)]].
    + exists (cs ++ [Call_test_step (epoch s0)]), new.
      rewrite Fc, Cd, Ic, Id, <- app_assoc, Len. repeat split; auto.
    + exists (cs ++ [Call_test_step (epoch s0)]), new.
      rewrite Fc, Cd, Ic, Id, <- app_assoc, Len. repeat split; auto.
    + exists (cs ++ [Call_test_step (epoch s0)]),
             (new ++ [ {| f_dir := PATH s0;
                          f_name := checkpoint_name (epoch s0) l a;
                          f_state := model s0 |} ]).
      rewrite Fc, Cd, Ic, Id, <- !app_assoc, Len, length_app. cbn [List.length].
      repeat split; auto; [lia|].
      apply Forall_app. split; [exact Mono|].
      constructor; [|constructor]. cbn [f_dir f_name]. split; [exact Ip|].
      exists (epoch s0), l, a. split; [|reflexivity].
      unfold tested_epochs. rewrite flat_map_app. apply in_or_app.
      right. cbn. auto.
  - split; [reflexivity|]. exists [], []. cbn. rewrite !app_nil_r.
    repeat split; auto.
Qed.

(** The parameters and the optimizer of a run, whether it returns or raises,
    are those that one pass over the train loader per call of the train step
    produces: evaluations, their cadence and the test loader have no part in
    them.  A run that returns with the flag down made [EPOCHS] passes. *)
Theorem train_parameters EPOCHS TE P (s : Self) :
  let s' := snd (train EPOCHS TE P s) in
  (exists cs,
     calls s' = calls s ++ cs /\
     (model s', optimizer s') =
       Nat.iter (List.length (trained_epochs cs))
         (pass_params (criterion s) (train_loader s)) (model s, optimizer s)) /\
  (forall h, fst (train EPOCHS TE P s) = Ok h -> patience_ended s' = false ->
     (model s', optimizer s') =
       Nat.iter (Z.to_nat EPOCHS)
         (pass_params (criterion s) (train_loader s)) (model s, optimizer s)).
Proof.
  cbv zeta.
  assert (I : params_invariant s (snd (train EPOCHS TE P s))).
  { apply train_keeps.
    - intros e s0 I. exact I.
    - intros h s0 I. exact I.
    - intros s0 (Icr & Itr & cs & Ic & Ip) _.
      destruct (_train_step_effect s0)
        as ((_ & _ & Ftr & _) & (_ & _ & _ & _ & Fcr & _) & Fc & _ & _ & _ & _ & Fp).
      split; [congruence|]. split; [congruence|].
      exists (cs ++ [Call_train_step (epoch s0)]).
      split; [rewrite Fc, Ic, <- app_assoc; reflexivity|].
      unfold trained_epochs in *. rewrite flat_map_app, length_app.
      cbn [flat_map List.length app].
      rewrite Nat.add_1_r, Nat.iter_succ, <- Ip, Fp, Icr, Itr.
      reflexivity.
    - intros prev s0 (Icr & Itr & cs & Ic & Ip) _.
      destruct (_test_step_effect prev s0)
        as ((_ & _ & Ftr & _) & (_ & _ & _ & _ & Fcr & _) & Fm & Fo & Fc & _).
      split; [congruence|]. split; [congruence|].
      exists (cs ++ [Call_test_step (epoch s0)]).
      split; [rewrite Fc, Ic, <- app_assoc; reflexivity|].
      unfold trained_epochs in *. rewrite flat_map_app, length_app.
      cbn [flat_map List.length app].
      rewrite Nat.add_0_r, Fm, Fo. exact Ip.
    - split; [reflexivity|]. split; [reflexivity|]. exists [].
      split; [cbn; now rewrite app_nil_r|reflexivity]. }
  destruct I as (_ & _ & cs & Ic & Ip). split; [eauto|].
  intros h R E. destruct (train EPOCHS TE P s) as [r s'] eqn:T.
  cbn [fst snd] in *. subst r.
  destruct (train_ok_full _ _ _ _ _ _ T E) as (A & _).
  rewrite Ic in A. unfold trained_epochs in A. rewrite flat_map_app in A.
  apply app_inv_head in A. fold (trained_epochs cs) in A.
  rewrite Ip, A. unfold range. now rewrite length_map, length_seq.
Qed.

(** [train] forgets the patience state it finds: a wrapper that stopped early
    trains again as one that never ran. *)
Theorem train_resets_patience EPOCHS TE P (s : Self) q c b :
  train EPOCHS TE P (set_patience_ended b (set_patience_curr c (set_PATIENCE q s)))
  = train EPOCHS TE P s.
Proof. rewrite !train_run. reflexivity. Qed.

(** The train step never touches the patience state, the files, the history,
    the epoch or the loaders, whether it returns or raises; it records one
    call, leaves the model in training mode, and its parameters are those of
    one pass of optimizer steps (the pass is empty when it raises). *)
Theorem _train_step_touches (s : Self) :
  let s' := snd (_train_step s) in
  PATIENCE s' = PATIENCE s /\ patience_curr s' = patience_curr s /\
  patience_ended s' = patience_ended s /\ disk s' = disk s /\
  history s' = history s /\ epoch s' = epoch s /\
  train_loader s' = train_loader s /\ test_loader s' = test_loader s /\
  calls s' = calls s ++ [Call_train_step (epoch s)] /\ training s' = true /\
  (model s', optimizer s') =
    pass_params (criterion s) (train_loader s) (model s, optimizer s) /\
  (forall e, fst (_train_step s) = Raise e ->
     model s' = model s /\ optimizer s' = optimizer s).
Proof.
  destruct (_train_step_effect s)
    as ((Fe & Fp & Ftr & Fte & Fh) & _ & Fc & Fd & Fpc & Fpe & Ft & Fm).
  cbv zeta. do 11 (split; [assumption|]).
  intros e R. rewrite _train_step_run in R. cbv zeta in R.
  destruct (train_loader s); [|discriminate].
  unfold pass_params in Fm. cbn [fold_left] in Fm. now inversion Fm.
Qed.

(** A NaN on either side of the comparison makes the evaluation a no-op for
    the policy at every epoch: the counter, the flag and the files are left
    as they were, so a loss that became NaN never stops a run. *)
Theorem _test_step_nan (s s' : Self) (prev loss acc : float) :
  _test_step prev s = (Ok (loss, acc), s') ->
  PrimFloat.is_nan loss = true \/ PrimFloat.is_nan prev = true ->
  patience_curr s' = patience_curr s /\
  patience_ended s' = patience_ended s /\
  disk s' = disk s.
Proof.
  intros R N. apply _test_step_ok in R. destruct R as (_ & _ & _ & ->).
  assert (L : py_lt prev loss = false /\ py_lt loss prev = false).
  { destruct N as [N|N].
    - destruct (is_nan_not_lt loss prev N) as (A & B). auto.
    - destruct (is_nan_not_lt prev loss N) as (A & B). auto. }
  destruct L as (L1 & L2).
  destruct (PATIENCE (test_entry s)) as [limit|] eqn:P.
  - rewrite (policy_unchanged prev loss acc _ limit P).
    + cbn. auto.
    + rewrite L1. reflexivity.
    + rewrite py_gt_lt. exact L2.
  - rewrite (policy_disabled _ _ _ _ P). cbn. auto.
Qed.

(** [init_optim] in one equation. *)
Lemma init_optim_run (sel : string) (s : Self) :
  init_optim sel s =
  let s1 := set_acc_fn (if num_classes s >? 2 then multiclass else binary)
              (set_criterion (if num_classes s >? 2 then CrossEntropyLoss
                              else BCEWithLogitsLoss) s) in
  if String.eqb sel "Adam" then
    match torch_optim Adam (model s) (LR s) (WEIGHT_DECAY s) with
    | Ok o => (Ok tt, set_optimizer o s1)
    | Raise e => (Raise e, s1)
    end
  else if String.eqb sel "SGD" then
    match torch_optim SGD (model s) (LR s) (WEIGHT_DECAY s) with
    | Ok o => (Ok tt, set_optimizer o s1)
    | Raise e => (Raise e, s1)
    end
  else (Raise (RuntimeError optimizer_error), s1).
Proof.
  unfold init_optim, bind, modify, raise, get, lift. cbn [num_classes set_criterion].
  cbn [model LR WEIGHT_DECAY set_acc_fn set_criterion].
  destruct (String.eqb sel "Adam"), (String.eqb sel "SGD");
    try destruct (torch_optim _ _ _ _); reflexivity.
Qed.

Lemma init_optim_criterion (sel : string) (s : Self) :
  criterion (snd (init_optim sel s)) =
  (if num_classes s >? 2 then CrossEntropyLoss else BCEWithLogitsLoss).
Proof.
  rewrite init_optim_run. cbv zeta.
  destruct (String.eqb sel "Adam"), (String.eqb sel "SGD");
    try destruct (torch_optim _ _ _ _); reflexivity.
Qed.

(** [init_optim] picks the criterion and the metric from [self.num_classes]
    alone, as a pair, and does so before it looks at the selector: they are
    replaced even when the call raises, and the optimizer is then left as it
    was.  On Adam or SGD the optimizer is the one the constructor returns,
    built on the current model with the learning rate and weight decay of the
    object; when the constructor raises, the optimizer is left as it was.
    Nothing else changes. *)
Theorem init_optim_effect (sel : string) (s : Self) :
  let s' := snd (init_optim sel s) in
  (criterion s', acc_fn s') =
    (if num_classes s >? 2 then (CrossEntropyLoss, multiclass)
     else (BCEWithLogitsLoss, binary)) /\
  optimizer s' =
    (if String.eqb sel "Adam"
     then match torch_optim Adam (model s) (LR s) (WEIGHT_DECAY s) with
          | Ok o => o
          | Raise _ => optimizer s
          end
     else if String.eqb sel "SGD"
     then match torch_optim SGD (model s) (LR s) (WEIGHT_DECAY s) with
          | Ok o => o
          | Raise _ => optimizer s
          end
     else optimizer s) /\
  model s' = model s /\ num_classes s' = num_classes s /\
  train_loader s' = train_loader s /\ test_loader s' = test_loader s /\
  disk s' = disk s /\ calls s' = calls s /\ history s' = history s.
Proof.
  rewrite init_optim_run. cbv zeta.
  destruct (String.eqb sel "Adam"), (String.eqb sel "SGD"),
    (num_classes s >? 2) eqn:N;
    try destruct (torch_optim _ _ _ _); cbn; repeat split; reflexivity.
Qed.

(** The class count given to [load_model] shapes the classifier only: it is
    not stored, so the criterion [init_optim] picks afterwards depends on
    [self.num_classes] as it was.  [load_model] does not rebuild the
    optimizer either: called after [init_optim], it leaves the optimizer that
    was built on the previous model.  Both hold whether the calls return or
    raise.  On a supported selector, when the pretrained constructor and the
    classifier construction return, the model is the pretrained one with its
    features frozen and the new classifier, as the checkpoint loading leaves
    it when a checkpoint is given and can be read. *)
Theorem load_model_and_init_optim (n : Z) (sel opt : string)
    (checkpoint : option string) (s : Self) :
  num_classes (snd (load_model n sel checkpoint s)) = num_classes s /\
  criterion (snd (init_optim opt (snd (load_model n sel checkpoint s)))) =
    (if num_classes s >? 2 then CrossEntropyLoss else BCEWithLogitsLoss) /\
  optimizer (snd (load_model n sel checkpoint (snd (init_optim opt s)))) =
    optimizer (snd (init_optim opt s)) /\
  (forall a m c, select_arch sel = Ok a -> tv_pretrained a = Ok m ->
     nn_classifier n = Ok c ->
     model (snd (load_model n sel checkpoint s)) =
       match checkpoint with
       | Some path =>
           match torch_load path with
           | Ok state =>
               snd (load_state_dict (set_classifier (freeze_features m) c) state)
           | Raise _ => set_classifier (freeze_features m) c
           end
       | None => set_classifier (freeze_features m) c
       end).
Proof.
  assert (F : forall s0 : Self,
            num_classes (snd (load_model n sel checkpoint s0)) = num_classes s0 /\
            optimizer (snd (load_model n sel checkpoint s0)) = optimizer s0).
  { intros s0. rewrite load_model_run. cbv zeta.
    destruct (select_arch sel) as [a|e]; [|auto].
    destruct (tv_pretrained a) as [m|e]; [|auto].
    destruct (nn_classifier n) as [c|e]; [|auto].
    destruct checkpoint as [path|]; [|auto].
    destruct (torch_load path) as [state|e]; auto. }
  split; [apply F|]. split; [|split; [apply F|]].
  - rewrite init_optim_criterion, (proj1 (F s)). reflexivity.
  - intros a m c Ea Em Ec. rewrite load_model_run, Ea, Em, Ec. cbv zeta.
    destruct checkpoint as [path|]; [|reflexivity].
    destruct (torch_load path) as [state|e]; reflexivity.
Qed.

Lemma train_loop_calls epochs TE : forall results tl (s : Self) results' tl' s',
  train_loop epochs TE results tl s = (Ok (results', tl'), s') ->
  exists k, (k <= List.length epochs)%nat /\
    calls s' = calls s ++ flat_map (epoch_calls TE) (firstn k epochs) /\
    (patience_ended s' = false -> k = List.length epochs).
Proof.
  induction epochs as [|e rest IH]; intros results tl s results' tl' s' R.
  - cbn in R. inversion R; subst. exists 0%nat. cbn. rewrite app_nil_r. auto.
  - rewrite train_loop_cons in R. destruct (patience_ended s) eqn:P.
    + inversion R; subst. exists 0%nat. cbn. rewrite app_nil_r.
      repeat split; auto; try lia. congruence.
    + destruct (epoch_body TE results tl (set_epoch e s)) as [[[r t]|x] s1] eqn:B;
        [|discriminate].
      apply epoch_body_ok in B. destruct B as (_ & _ & _ & B).
      change (epoch (set_epoch e s)) with e in B.
      change (calls (set_epoch e s)) with (calls s) in B.
      apply IH in R. destruct R as (k & Hk & Hc & Hfull).
      exists (S k). cbn [firstn flat_map List.length]. unfold epoch_calls at 1.
      destruct (due TE e); destruct B as (Bc & _);
        rewrite Hc, Bc, <- app_assoc; cbn [app];
        (split; [lia|]); (split; [reflexivity|]);
        intros E; now rewrite (Hfull E).
Qed.

Lemma train_calls EPOCHS TE P (s s' : Self) h :
  train EPOCHS TE P s = (Ok h, s') ->
  exists k, (k <= List.length (range EPOCHS))%nat /\
    calls s' = calls s ++ flat_map (epoch_calls TE) (firstn k (range EPOCHS)) /\
    (patience_ended s' = false -> k = List.length (range EPOCHS)).
Proof.
  intros R. rewrite train_run in R.
  destruct (train_loop (range EPOCHS) TE [] 0%float (train_entry_state P s))
    as [[[results tl]|x] s1] eqn:L; [|discriminate].
  cbv zeta in R. inversion R; subst h s'. clear R.
  exact (train_loop_calls _ _ _ _ _ _ _ _ L).
Qed.

(** The calls of a run that returns are, epoch after epoch of a prefix of
    [range(EPOCHS)], the train step followed by the eval step when the epoch
    is due; the prefix is all of [range(EPOCHS)] unless the run stopped
    early. *)
Theorem train_call_sequence EPOCHS TE P (s s' : Self) h :
  train EPOCHS TE P s = (Ok h, s') ->
  exists k, (k <= List.length (range EPOCHS))%nat /\
    calls s' =
      calls s ++
      flat_map (fun e => Call_train_step e ::
                         (if e mod TE =? 0 then [Call_test_step e] else []))
               (firstn k (range EPOCHS)) /\
    (patience_ended s' = false -> k = List.length (range EPOCHS)).
Proof.
  intros R. exact (train_calls _ _ _ _ _ _ R).
Qed.

(** The mode [train] leaves the model in.  After an early stop the model is in
    evaluation mode, whether the run returns or raises.  A run of at least one
    epoch that returns with the flag down leaves the model in evaluation mode
    when its last epoch was due, and in training mode otherwise. *)
Theorem train_leaves_mode EPOCHS TE P (s : Self) :
  let s' := snd (train EPOCHS TE P s) in
  (patience_ended s' = true -> training s' = false) /\
  (forall h, fst (train EPOCHS TE P s) = Ok h -> patience_ended s' = false ->
     1 <= EPOCHS ->
     training s' = negb ((EPOCHS - 1) mod TE =? 0)).
Proof.
  cbv zeta.
  assert (I : (patience_ended (snd (train EPOCHS TE P s)) = true ->
               training (snd (train EPOCHS TE P s)) = false) /\
              (calls (snd (train EPOCHS TE P s)) = calls s \/
               exists cs c, calls (snd (train EPOCHS TE P s)) = cs ++ [c] /\
                 training (snd (train EPOCHS TE P s)) = mode_after c)).
  { apply (train_keeps (fun s' =>
             (patience_ended s' = true -> training s' = false) /\
             (calls s' = calls s \/
              exists cs c, calls s' = cs ++ [c] /\ training s' = mode_after c))).
    - intros e s0 I. exact I.
    - intros h0 s0 I. exact I.
    - intros s0 _ E.
      destruct (_train_step_effect s0) as (_ & _ & Fc & _ & _ & Fe & Ft & _).
      split; [congruence|]. right. eauto.
    - intros prev s0 _ E.
      destruct (_test_step_effect prev s0) as (_ & _ & _ & _ & Fc & Ft & _).
      split; [auto|]. right. eauto.
    - split; [discriminate|]. left. reflexivity. }
  destruct I as (I1 & I2). split; [exact I1|].
  intros h R E G. destruct (train EPOCHS TE P s) as [r s'] eqn:T.
  cbn [fst snd] in *. subst r.
  destruct (train_calls _ _ _ _ _ _ T) as (k & _ & Hc & Hfull).
  rewrite (Hfull E), firstn_all in Hc.
  replace EPOCHS with (EPOCHS - 1 + 1) in Hc by lia.
  rewrite range_snoc, flat_map_app in Hc by lia.
  cbn [flat_map] in Hc. rewrite app_nil_r in Hc. unfold epoch_calls at 2 in Hc.
  unfold due in Hc.
  destruct I2 as [I2|(cs & c & I2 & I3)].
  - rewrite I2 in Hc. apply (f_equal (@List.length _)) in Hc.
    rewrite !length_app in Hc. cbn [List.length] in Hc. lia.
  - rewrite I3. rewrite I2 in Hc.
    destruct ((EPOCHS - 1) mod TE =? 0).
    + change (Call_train_step (EPOCHS - 1) :: [Call_test_step (EPOCHS - 1)])
        with ([Call_train_step (EPOCHS - 1)] ++ [Call_test_step (EPOCHS - 1)]) in Hc.
      rewrite !app_assoc in Hc. apply app_inj_tail in Hc.
      destruct Hc as (_ & ->). reflexivity.
    + rewrite app_assoc in Hc. apply app_inj_tail in Hc.
      destruct Hc as (_ & ->). reflexivity.
Qed.

(** The patience counter never exceeds the number of evaluations of the run,
    whether it returns or raises: an early stop under a limit takes at least
    that many evaluations. *)
Theorem train_counter_le_evaluations EPOCHS TE P (s : Self) :
  let s' := snd (train EPOCHS TE P s) in
  exists cs, calls s' = calls s ++ cs /\
    patience_curr s' <= Z.of_nat (List.length (tested_epochs cs)) /\
    (patience_ended s' = true ->
     exists limit, P = Some limit /\
       limit <= Z.of_nat (List.length (tested_epochs cs))).
Proof.
  cbv zeta.
  assert (I : (patience_ended (snd (train EPOCHS TE P s)) = true ->
               P = Some (patience_curr (snd (train EPOCHS TE P s)))) /\
              PATIENCE (snd (train EPOCHS TE P s)) = P /\
              exists cs, calls (snd (train EPOCHS TE P s)) = calls s ++ cs /\
                patience_curr (snd (train EPOCHS TE P s))
                  <= Z.of_nat (List.length (tested_epochs cs))).
  { apply (train_keeps (fun s' =>
             (patience_ended s' = true -> P = Some (patience_curr s')) /\
             PATIENCE s' = P /\
             exists cs, calls s' = calls s ++ cs /\
               patience_curr s' <= Z.of_nat (List.length (tested_epochs cs)))).
    - intros e s0 I. exact I.
    - intros h s0 I. exact I.
    - intros s0 (Ie & Ip & cs & Ic & Il) _.
      destruct (_train_step_effect s0)
        as ((_ & Fp & _) & _ & Fc & _ & Fpc & Fpe & _).
      rewrite Fp, Fpc, Fpe. split; [exact Ie|]. split; [exact Ip|].
      exists (cs ++ [Call_train_step (epoch s0)]).
      unfold tested_epochs in *. rewrite flat_map_app, length_app.
      cbn [flat_map List.length app]. rewrite Fc, Ic, <- app_assoc.
      split; [reflexivity|lia].
    - intros prev s0 (Ie & Ip & cs & Ic & Il) E.
      destruct (_test_step_effect prev s0)
        as ((_ & Fp & _) & _ & _ & _ & Fc & _ & C).
      rewrite Fp.
      assert (Calls : calls (snd (_test_step prev s0))
                      = calls s ++ cs ++ [Call_test_step (epoch s0)])
        by (rewrite Fc, Ic, <- app_assoc; reflexivity).
      assert (Len : Z.of_nat (List.length
                      (tested_epochs (cs ++ [Call_test_step (epoch s0)])))
                    = Z.of_nat (List.length (tested_epochs cs)) + 1).
      { unfold tested_epochs. rewrite flat_map_app, length_app. cbn. lia. }
      destruct C as [(Cc & Ce & _)|[(limit & Cp & _ & Cc & _ & Ce)
                                   |(limit & l & a & Cp & Cc & Ce & _)]].
      + rewrite Cc, Ce. split; [exact Ie|]. split; [exact Ip|].
        exists (cs ++ [Call_test_step (epoch s0)]). split; [exact Calls|lia].
      + rewrite Cc, Ce, E. split.
        * destruct (patience_curr s0 + 1 =? limit) eqn:Q; [|discriminate].
          apply Z.eqb_eq in Q. intros _. rewrite <- Ip, Cp, Q. reflexivity.
        * split; [exact Ip|].
          exists (cs ++ [Call_test_step (epoch s0)]). split; [exact Calls|lia].
      + rewrite Cc, Ce. split; [rewrite E; discriminate|]. split; [exact Ip|].
        exists (cs ++ [Call_test_step (epoch s0)]). split; [exact Calls|lia].
    - split; [discriminate|]. split; [reflexivity|].
      exists []. cbn. rewrite app_nil_r. split; [reflexivity|lia]. }
  destruct I as (Ie & _ & cs & Ic & Il). exists cs.
  split; [exact Ic|]. split; [exact Il|].
  intros E. exists (patience_curr (snd (train EPOCHS TE P s))).
  split; [exact (Ie E)|exact Il].
Qed.

Lemma py_mod_is_zero_opp (a b : Z) : py_mod_is_zero a (- b) = py_mod_is_zero a b.
Proof.
  unfold py_mod_is_zero.
  destruct (Z.eqb_spec b 0) as [->|N]; [reflexivity|].
  destruct (Z.eqb_spec (- b) 0) as [E|_]; [lia|].
  f_equal.
  destruct (Z.eqb_spec (a mod - b) 0) as [E|E];
    destruct (Z.eqb_spec (a mod b) 0) as [F|F]; try reflexivity; exfalso.
  - apply F. apply Z.mod_divide; [exact N|].
    apply Z.mod_divide in E; [|lia]. apply Z.divide_opp_l in E.
    rewrite Z.opp_involutive in E. exact E.
  - apply E. apply Z.mod_divide; [lia|].
    apply Z.mod_divide in F; [|exact N]. apply Z.divide_opp_l. exact F.
Qed.

Lemma train_loop_opp epochs TE : forall results tl (s : Self),
  train_loop epochs (- TE) results tl s = train_loop epochs TE results tl s.
Proof.
  induction epochs as [|e rest IH]; intros results tl s; [reflexivity|].
  rewrite !train_loop_cons. destruct (patience_ended s); [reflexivity|].
  rewrite !epoch_body_run.
  destruct (_train_step (set_epoch e s)) as [[[trl tra]|x] s1]; [|reflexivity].
  rewrite py_mod_is_zero_opp.
  destruct (py_mod_is_zero (epoch s1) TE) as [[|]|x]; auto.
  destruct (_test_step tl s1) as [[[l a]|x] s2]; auto.
Qed.

(** A negative cadence behaves as its absolute value: [epoch % TEST_EVERY]
    is 0 for the same epochs. *)
Theorem train_negative_cadence EPOCHS TE P (s : Self) :
  train EPOCHS (- TE) P s = train EPOCHS TE P s.
Proof. rewrite !train_run, train_loop_opp. reflexivity. Qed.

End RunProperties.

(** * Concrete runs on the stub, continued *)

(** Under a limit of 0 the rising losses of four epochs stop nothing. *)
Lemma train_nonpositive_patience_witness :
  patience_ended (snd (train 4 1 (Some 0) (stub_self 0 1 0 None))) = false /\
  trained_epochs (calls (snd (train 4 1 (Some 0) (stub_self 0 1 0 None))))
    = [0; 1; 2; 3].
Proof.
  pose proof (train_nonpositive_patience 4 1 0 (stub_self 0 1 0 None)
                ltac:(vm_compute; discriminate)) as K.
  cbv zeta in K. destruct K as (E & K).
  pose proof (K (the_history (train 4 1 (Some 0) (stub_self 0 1 0 None)))
                ltac:(vm_compute; reflexivity)) as T.
  vm_compute in E, T |- *. auto.
Defined.

Lemma train_test_every_zero_witness :
  fst (train 3 0 None (stub_self 0 1 0 None)) = Raise ZeroDivisionError /\
  calls (snd (train 3 0 None (stub_self 0 1 0 None))) = [Call_train_step 0] /\
  map f_name (disk (snd (train 3 0 None (stub_self 0 1 0 None)))) = [].
Proof.
  pose proof (train_test_every_zero 3 None (stub_self 0 1 0 None)
                ltac:(vm_compute; discriminate)) as K.
  cbv zeta in K. destruct K as (R & C & _ & D & _).
  apply (f_equal (map f_name)) in D.
  vm_compute in R, C, D |- *. auto.
Defined.

(** No epoch: an empty table, even with TEST_EVERY = 0 and no train batch. *)
Lemma train_no_epochs_witness :
  fst (train 0 0 None (stub_with_train_loader [])) = Ok empty_history /\
  calls (snd (train 0 0 None (stub_with_train_loader []))) = [].
Proof.
  pose proof (train_no_epochs 0 0 None (stub_with_train_loader [])
                ltac:(vm_compute; discriminate)) as K.
  cbv zeta in K. destruct K as (R & _ & C & _).
  vm_compute in R, C |- *. auto.
Defined.

(** With a cadence of 4 and three epochs, epoch 0 is the one evaluated. *)
Lemma train_evaluates_epoch_0_witness :
  map row_epoch (rows (the_history (train 3 4 None (stub_self 0 1 0 None))))
    = [Some 0] /\
  tested_epochs (calls (snd (train 3 4 None (stub_self 0 1 0 None)))) = [0].
Proof.
  pose proof (train_evaluates_epoch_0 3 4 None (stub_self 0 1 0 None)
                (snd (train 3 4 None (stub_self 0 1 0 None)))
                (the_history (train 3 4 None (stub_self 0 1 0 None)))
                ltac:(vm_compute; discriminate) ltac:(by_running))
    as ((a & b & c & d & more & R) & _ & (more' & T)).
  apply (f_equal (map row_epoch)) in R. cbn [map row_epoch] in R.
  split.
  - rewrite R. f_equal.
    apply (f_equal (@List.length _)) in R. cbn [List.length] in R.
    rewrite !length_map in R.
    assert (L : List.length (rows (the_history (train 3 4 None (stub_self 0 1 0 None))))
                = 1%nat) by (vm_compute; reflexivity).
    rewrite L in R. destruct more; [reflexivity|discriminate].
  - vm_compute. reflexivity.
Defined.

(** A weight that is NaN gives a NaN test loss: nothing happens. *)
Lemma _test_step_nan_witness :
  patience_curr (snd (_test_step 0.5 (stub_self PrimFloat.nan 0 1 (Some 1)))) = 0 /\
  patience_ended (snd (_test_step 0.5 (stub_self PrimFloat.nan 0 1 (Some 1))))
    = false /\
  map f_name (disk (snd (_test_step 0.5 (stub_self PrimFloat.nan 0 1 (Some 1)))))
    = [].
Proof.
  pose proof (_test_step_nan (stub_self PrimFloat.nan 0 1 (Some 1))
                (snd (_test_step 0.5 (stub_self PrimFloat.nan 0 1 (Some 1))))
                0.5%float PrimFloat.nan 0%float
                ltac:(by_running)
                ltac:(left; vm_compute; reflexivity)) as (C & E & D).
  apply (f_equal (map f_name)) in D.
  vm_compute in C, E, D |- *. auto.
Defined.

(** Three epochs under a cadence of 2: train, eval, train, train, eval. *)
Lemma train_call_sequence_witness :
  calls (snd (train 3 2 None (stub_self 0 1 0 None)))
    = [Call_train_step 0; Call_test_step 0; Call_train_step 1;
       Call_train_step 2; Call_test_step 2].
Proof.
  pose proof (train_call_sequence 3 2 None (stub_self 0 1 0 None)
                (snd (train 3 2 None (stub_self 0 1 0 None)))
                (the_history (train 3 2 None (stub_self 0 1 0 None)))
                ltac:(by_running)) as (k & _ & C & F).
  pose proof (F ltac:(vm_compute; reflexivity)) as K. subst k.
  vm_compute in C |- *. exact C.
Defined.

(** Two epochs and a test loader that yields nothing. *)
Lemma train_raises_on_empty_input_witness :
  fst (train 2 1 None (stub_with_test_loader [])) = Raise ZeroDivisionError.
Proof.
  pose proof (train_raises_on_empty_input 2 1 None (stub_with_test_loader []))
    as (K & _).
  exact (K ltac:(vm_compute; discriminate) (or_intror (or_intror eq_refl))).
Defined.

(** On the stub a supported selector returns when the collaborators do. *)
Lemma C9_witness :
  fst (load_model 10 "vgg11" None (stub_self 0 0 0 None)) = Ok tt.
Proof.
  pose proof (C9_setup_errors (stub_self 0 0 0 None) 10 None "vgg11") as (K & _).
  change (is_in "vgg11" supported_models) with true in K. cbv iota in K.
  destruct K as (a & _ & _ & K).
  exact (K 0%float 10 eq_refl eq_refl).
Defined.

(** What a collaborator raises propagates: a negative class count is refused
    by the classifier construction, a missing checkpoint by its loading, a
    negative learning rate by the optimizer constructor. *)
Lemma setup_collaborator_errors :
  fst (load_model (-1) "efficientnet_b0" None (stub_self 0 0 0 None))
    = Raise (RuntimeError "Trying to create tensor with negative dimension") /\
  fst (load_model 10 "efficientnet_b0" (Some "") (stub_self 0 0 0 None))
    = Raise (OtherError "FileNotFoundError" "No such file or directory") /\
  fst (init_optim "SGD" (set_optimizer 0%float
                           (mkSelf (-1)%float 0%float "runs" 10 0%float false
                              [] [] CrossEntropyLoss multiclass 0%float None 0
                              false 0 None [] [])))
    = Raise (OtherError "ValueError" "Invalid learning rate").
Proof. repeat split; vm_compute; reflexivity. Qed.
